(** * Invoice aggregation engine of the RMG invoice dashboard ([main.py])

    A shallow embedding of the data path of [main.py]:
    [process_invoices] (record normalisation), the three sidebar filters,
    the key metrics, the grouped totals, the top-5 monthly breakdown,
    the display table and its pagination.

    Modelling conventions.
    - A pandas DataFrame is the list of its rows in index order; boolean
      indexing [df[mask]] is [List.filter].
    - Amounts are exact rationals ([Q]); floating-point rounding is not
      modelled, and pandas' NaN is an absent value ([None]).
    - A [Timestamp] is the number of nanoseconds since the Unix epoch, as
      pandas stores it; [.dt.date] is the floor division by the length of
      a day.
    - [pd.to_datetime] is a parameter of the development: a partial
      function from text to timestamps, [None] on text that is not read as
      a date.  pandas rejects most such text with an exception but turns
      blank and NaT-like text into NaT without raising; a row has no value
      for NaT here, so the model follows pandas on the columns whose texts
      are all read as dates, and the properties that involve dates are
      stated for those.
    - [sort_values] is used with its default [kind], which pandas documents
      as not stable; the sorting algorithm is therefore an interface
      ([SortKind]) with the contract "sorted permutation of the input".
      Two algorithms are given: insertion sort, which is stable, and the
      quicksort of numpy that the default [kind] selects.
    - Python exceptions are values of [result]. *)

From Stdlib Require Import ZArith QArith Qround List String Ascii Bool Lia.
From Stdlib Require Import Permutation Sorted OrderedTypeEx Morphisms Setoid.
Import ListNotations.

Local Open Scope Z_scope.

(** ** Python values and exceptions *)

Module Py.

(** An exception, identified by the name of its class. *)
Inductive exn : Type := Exception (cls : string).

Definition exn_class (e : exn) : string :=
  match e with Exception c => c end.

Inductive result (A : Type) : Type :=
| Ok (a : A)
| Raise (e : exn).
Arguments Ok {A} a.
Arguments Raise {A} e.

Definition bind {A B} (m : result A) (k : A -> result B) : result B :=
  match m with
  | Ok a => k a
  | Raise e => Raise e
  end.

(** A JSON scalar as [json.load] hands it over. *)
Inductive pyval : Type :=
| PyNone
| PyNum (q : Q)
| PyStr (s : string).

Definition is_numeric (v : pyval) : bool :=
  match v with PyNum _ => true | _ => false end.

(** [acc + v] where [acc] is a number: only a number can be added. *)
Definition py_add (acc : Q) (v : pyval) : result Q :=
  match v with
  | PyNum q => Ok (acc + q)%Q
  | _ => Raise (Exception "TypeError")
  end.

(** The builtin [sum(iterable)]: starts from [0] and adds from the left. *)
Fixpoint py_sum_from (acc : Q) (l : list pyval) : result Q :=
  match l with
  | [] => Ok acc
  | v :: t => bind (py_add acc v) (fun acc' => py_sum_from acc' t)
  end.

Definition py_sum (l : list pyval) : result Q := py_sum_from 0%Q l.

End Py.
Import Py.

Notation "x <- m ;; k" := (bind m (fun x => k))
  (at level 61, m at next level, right associativity).

(** ** Timestamps and the calendar *)

Module Calendar.

Definition Timestamp := Z.
(** A [datetime.date], as the number of days since 1970-01-01. *)
Definition date := Z.

Definition ns_per_day : Z := 86400000000000.

(** [Series.dt.date] *)
Definition dt_date (t : Timestamp) : date := t / ns_per_day.

(** Year, month and day of a day number in the proleptic Gregorian
    calendar. *)
Definition civil_from_days (z0 : Z) : Z * Z * Z :=
  let z := z0 + 719468 in
  let era := z / 146097 in
  let doe := z - era * 146097 in
  let yoe := (doe - doe / 1460 + doe / 36524 - doe / 146096) / 365 in
  let doy := doe - (365 * yoe + yoe / 4 - yoe / 100) in
  let mp := (5 * doy + 2) / 153 in
  let d := doy - (153 * mp + 2) / 5 + 1 in
  let m := if mp <? 10 then mp + 3 else mp - 9 in
  let y := yoe + era * 400 + (if m <=? 2 then 1 else 0) in
  (y, m, d).

Definition days_from_civil (y m d : Z) : Z :=
  let y' := if m <=? 2 then y - 1 else y in
  let era := y' / 400 in
  let yoe := y' - era * 400 in
  let mp := if m >? 2 then m - 3 else m + 9 in
  let doy := (153 * mp + 2) / 5 + d - 1 in
  let doe := yoe * 365 + yoe / 4 - yoe / 100 + doy in
  era * 146097 + doe - 719468.

(** [Series.dt.year], [Series.dt.month] *)
Definition dt_year (t : Timestamp) : Z :=
  let '(y, _, _) := civil_from_days (dt_date t) in y.
Definition dt_month (t : Timestamp) : Z :=
  let '(_, m, _) := civil_from_days (dt_date t) in m.
Definition dt_day (t : Timestamp) : Z :=
  let '(_, _, d) := civil_from_days (dt_date t) in d.

Definition digit (n : Z) : ascii := ascii_of_N (48 + Z.to_N (n mod 10)).

Definition pad2 (n : Z) : string :=
  String (digit (n / 10)) (String (digit n) EmptyString).
Definition pad4 (n : Z) : string :=
  String (digit (n / 1000)) (String (digit (n / 100)) (pad2 n)).

(** [Series.dt.to_period("M").astype(str)]: "YYYY-MM". *)
Definition period_M_str (t : Timestamp) : string :=
  (pad4 (dt_year t) ++ "-" ++ pad2 (dt_month t))%string.

(** [Series.dt.strftime("%Y-%m-%d")] *)
Definition strftime_Ymd (t : Timestamp) : string :=
  (pad4 (dt_year t) ++ "-" ++ pad2 (dt_month t) ++ "-" ++ pad2 (dt_day t))%string.

(** *** A concrete reader of ISO-8601 dates

    One admissible instance of [pd.to_datetime], reading "YYYY-MM-DD" and
    "YYYY-MM" only.  It is used to run the pipeline on examples. *)

Definition digit_val (c : ascii) : option Z :=
  let n := N_of_ascii c in
  if ((48 <=? n) && (n <=? 57))%N then Some (Z.of_N n - 48) else None.

Fixpoint digits_val (acc : Z) (s : string) : option Z :=
  match s with
  | EmptyString => Some acc
  | String c s' =>
      match digit_val c with
      | Some d => digits_val (10 * acc + d) s'
      | None => None
      end
  end.

Definition number (s : string) : option Z := digits_val 0 s.

Definition valid_civil (y m d : Z) : bool :=
  let '(y', m', d') := civil_from_days (days_from_civil y m d) in
  (y' =? y) && (m' =? m) && (d' =? d) && (1 <=? m) && (m <=? 12) && (1 <=? d).

Definition midnight (y m d : Z) : option Timestamp :=
  if valid_civil y m d then Some (days_from_civil y m d * ns_per_day) else None.

Definition iso_to_datetime (s : string) : option Timestamp :=
  let dash := "-"%char in
  match String.length s with
  | 10%nat =>
      if Ascii.eqb (match get 4 s with Some c => c | None => " "%char end) dash
         && Ascii.eqb (match get 7 s with Some c => c | None => " "%char end) dash
      then
        match number (substring 0 4 s), number (substring 5 2 s),
              number (substring 8 2 s) with
        | Some y, Some m, Some d => midnight y m d
        | _, _, _ => None
        end
      else None
  | 7%nat =>
      if Ascii.eqb (match get 4 s with Some c => c | None => " "%char end) dash
      then
        match number (substring 0 4 s), number (substring 5 2 s) with
        | Some y, Some m => midnight y m 1
        | _, _ => None
        end
      else None
  | _ => None
  end.

End Calendar.
Import Calendar.

(** ** The pandas operations used by [main] *)

Module Pandas.

(** *** Keys of a [groupby]

    Group keys are compared the way Python compares them: text by code
    point, tuples lexicographically. *)
Class Ord (K : Type) : Type := {
  compare : K -> K -> comparison;
  compare_eq : forall a b, compare a b = Eq <-> a = b;
  compare_antisym : forall a b, compare a b = CompOpp (compare b a);
  compare_trans : forall a b c,
      compare a b = Lt -> compare b c = Lt -> compare a c = Lt
}.

Definition eqb_key {K} `{Ord K} (a b : K) : bool :=
  match compare a b with Eq => true | _ => false end.

Definition lex_compare {A B} `{Ord A} `{Ord B} (p q : A * B) : comparison :=
  match compare (fst p) (fst q) with
  | Eq => compare (snd p) (snd q)
  | c => c
  end.

(** *** Reductions of a column *)

(** [Series.sum()] *)
Definition series_sum (l : list Q) : Q := fold_left Qplus l 0%Q.

(** [Series.mean()]: NaN ([None]) on an empty column. *)
Definition series_mean (l : list Q) : option Q :=
  match l with
  | [] => None
  | _ => Some (series_sum l / inject_Z (Z.of_nat (List.length l)))%Q
  end.

(** [Series.unique()]: the distinct values in order of first appearance. *)
Fixpoint unique (l : list string) : list string :=
  match l with
  | [] => []
  | x :: t =>
      x :: filter (fun y => negb (String.eqb y x)) (unique t)
  end.

(** [Series.nunique()] *)
Definition nunique (l : list string) : nat := List.length (unique l).

(** [Series.isin(values)] on one cell. *)
Definition isin (x : string) (values : list string) : bool :=
  existsb (String.eqb x) values.

(** *** [groupby(key)[column].sum()]

    The groups are kept ordered by key ([sort=True]); a row adds its
    value to the total of its group, in row order. *)
Fixpoint group_add {K} `{Ord K} (k : K) (v : Q) (acc : list (K * Q))
  : list (K * Q) :=
  match acc with
  | [] => [(k, v)]
  | (k', s) :: rest =>
      match compare k k' with
      | Eq => (k', (s + v)%Q) :: rest
      | Lt => (k, v) :: (k', s) :: rest
      | Gt => (k', s) :: group_add k v rest
      end
  end.

Definition groupby_sum {R K} `{Ord K} (key : R -> K) (val : R -> Q)
           (df : list R) : list (K * Q) :=
  fold_left (fun acc r => group_add (key r) (val r) acc) df [].

(** *** [sort_values]

    [kind] selects the sorting algorithm; [main] never passes it, so the
    default applies, for which only the outcome "sorted" is documented.
    An algorithm is any function that returns a sorted permutation. *)
Definition total_order {A} (leb : A -> A -> bool) : Prop :=
  (forall a b, leb a b = true \/ leb b a = true) /\
  (forall a b c, leb a b = true -> leb b c = true -> leb a c = true).

Record SortKind : Type := {
  np_sort : forall A : Type, (A -> A -> bool) -> list A -> list A;
  np_sort_perm : forall A leb l, Permutation l (np_sort A leb l);
  np_sort_sorted : forall A (leb : A -> A -> bool) l,
      total_order leb ->
      StronglySorted (fun a b => leb a b = true) (np_sort A leb l)
}.

(** [sort_values(by, ascending)]: a descending sort reverses the rows,
    sorts them in ascending order and reverses the outcome. *)
Definition sort_values (kind : SortKind) {A} (leb : A -> A -> bool)
           (ascending : bool) (l : list A) : list A :=
  if ascending then np_sort kind A leb l
  else rev (np_sort kind A leb (rev l)).

(** Insertion sort, a stable algorithm ([kind="stable"]). *)
Fixpoint insert_sorted {A} (leb : A -> A -> bool) (x : A) (l : list A)
  : list A :=
  match l with
  | [] => [x]
  | y :: t => if leb x y then x :: l else y :: insert_sorted leb x t
  end.

Fixpoint insertion_sort {A} (leb : A -> A -> bool) (l : list A) : list A :=
  match l with
  | [] => []
  | x :: t => insert_sorted leb x (insertion_sort leb t)
  end.

(** [DataFrame.iloc[start:stop]] for indices that are not negative. *)
Definition iloc {A} (start stop : Z) (l : list A) : list A :=
  firstn (Z.to_nat (stop - start)) (skipn (Z.to_nat start) l).

End Pandas.
Import Pandas.

(** ** numpy's quicksort, the algorithm behind the default [kind]

    [Series.argsort(kind="quicksort")] on a datetime or number column runs
    [aquicksort_] of numpy's [npysort/quicksort.cpp]: an introsort over an
    array of row positions.  A segment of more than 17 positions is
    partitioned around the median of its first, middle and last keys;
    shorter segments are finished by insertion sort; [aheapsort_] takes
    over when the depth allowance is used up.  The array of positions is a
    list here, pointers are offsets into it, and every loop carries a
    bound on its number of turns. *)

Module Numpy.

Section ArgSort.
Context {A : Type} (leb : A -> A -> bool) (d : A) (v : list A).

(** [Tag::less]: the strict order of the keys. *)
Definition less (x y : A) : bool := negb (leb y x).

(** [*p] and [*p = x] for a pointer [p] into [tosort]. *)
Definition deref (tosort : list nat) (p : Z) : nat :=
  nth (Z.to_nat p) tosort 0%nat.

Fixpoint store_at (tosort : list nat) (i : nat) (x : nat) : list nat :=
  match tosort, i with
  | [], _ => []
  | _ :: t, O => x :: t
  | y :: t, S i' => y :: store_at t i' x
  end.

Definition store (tosort : list nat) (p : Z) (x : nat) : list nat :=
  if p <? 0 then tosort else store_at tosort (Z.to_nat p) x.

(** [v[*p]] *)
Definition key (tosort : list nat) (p : Z) : A := nth (deref tosort p) v d.

Definition INTP_SWAP (tosort : list nat) (p q : Z) : list nat :=
  store (store tosort p (deref tosort q)) q (deref tosort p).

(** The three conditional swaps that order the keys at [pl], [pm], [pr]. *)
Definition median_of_three (tosort : list nat) (pl pm pr : Z) : list nat :=
  let tosort :=
    if less (key tosort pm) (key tosort pl) then INTP_SWAP tosort pm pl
    else tosort in
  let tosort :=
    if less (key tosort pr) (key tosort pm) then INTP_SWAP tosort pr pm
    else tosort in
  if less (key tosort pm) (key tosort pl) then INTP_SWAP tosort pm pl
  else tosort.

(** [do { ++pi; } while (less(v[*pi], vp));] *)
Fixpoint scan_up (turns : nat) (tosort : list nat) (vp : A) (pi : Z) : Z :=
  let pi := pi + 1 in
  match turns with
  | O => pi
  | S n => if less (key tosort pi) vp then scan_up n tosort vp pi else pi
  end.

(** [do { --pj; } while (less(vp, v[*pj]));] *)
Fixpoint scan_down (turns : nat) (tosort : list nat) (vp : A) (pj : Z) : Z :=
  let pj := pj - 1 in
  match turns with
  | O => pj
  | S n => if less vp (key tosort pj) then scan_down n tosort vp pj else pj
  end.

(** The [for (;;)] loop of the partition: both scans stop on a key equal
    to the pivot, and the two positions are then swapped. *)
Fixpoint cross (turns : nat) (tosort : list nat) (vp : A) (pi pj : Z)
  : list nat * Z :=
  let pi := scan_up (List.length tosort) tosort vp pi in
  let pj := scan_down (List.length tosort) tosort vp pj in
  match turns with
  | O => (tosort, pi)
  | S n =>
      if pi >=? pj then (tosort, pi)
      else cross n (INTP_SWAP tosort pi pj) vp pi pj
  end.

(** One partition of the segment [pl..pr]; returns the place of the pivot. *)
Definition partition (tosort : list nat) (pl pr : Z) : list nat * Z :=
  let pm := pl + Z.shiftr (pr - pl) 1 in
  let tosort := median_of_three tosort pl pm pr in
  let vp := key tosort pm in
  let tosort := INTP_SWAP tosort pm (pr - 1) in
  let '(tosort, pi) := cross (List.length tosort) tosort vp pl (pr - 1) in
  (INTP_SWAP tosort pi (pr - 1), pi).

Definition SMALL_QUICKSORT : Z := 16.

(** [while ((pr - pl) > SMALL_QUICKSORT)]: partition, push the larger part
    on the stack with the depth left, go on with the smaller part. *)
Fixpoint partition_loop (turns : nat) (tosort : list nat) (pl pr cdepth : Z)
         (stack : list (Z * Z * Z)) : list nat * Z * Z * list (Z * Z * Z) :=
  match turns with
  | O => (tosort, pl, pr, stack)
  | S n =>
      if pr - pl >? SMALL_QUICKSORT then
        let '(tosort, pi) := partition tosort pl pr in
        let cdepth := cdepth - 1 in
        if pi - pl <? pr - pi
        then partition_loop n tosort pl (pi - 1) cdepth
                            ((pi + 1, pr, cdepth) :: stack)
        else partition_loop n tosort (pi + 1) pr cdepth
                            ((pl, pi - 1, cdepth) :: stack)
      else (tosort, pl, pr, stack)
  end.

(** [while (pj > pl && less(vp, v[*pk])) { *pj-- = *pk--; }] *)
Fixpoint shift (turns : nat) (tosort : list nat) (pl : Z) (vp : A) (pj : Z)
  : list nat * Z :=
  match turns with
  | O => (tosort, pj)
  | S n =>
      if (pj >? pl) && less vp (key tosort (pj - 1))
      then shift n (store tosort pj (deref tosort (pj - 1))) pl vp (pj - 1)
      else (tosort, pj)
  end.

(** The insertion sort that finishes a short segment. *)
Fixpoint insertion_from (count : nat) (tosort : list nat) (pl pi : Z)
  : list nat :=
  match count with
  | O => tosort
  | S c =>
      let vi := deref tosort pi in
      let '(tosort, pj) :=
        shift (List.length tosort) tosort pl (nth vi v d) pi in
      insertion_from c (store tosort pj vi) pl (pi + 1)
  end.

Definition insertion (tosort : list nat) (pl pr : Z) : list nat :=
  insertion_from (Z.to_nat (pr - pl)) tosort pl (pl + 1).

(** [aheapsort_] on [n] positions; [a = tosort - 1], so that [a[1]] is the
    first of them and [a[k]] is at offset [base + k]. *)
Fixpoint sift (turns : nat) (tosort : list nat) (base n : Z) (tmp : nat)
         (i j : Z) : list nat * Z :=
  match turns with
  | O => (tosort, i)
  | S t =>
      if j <=? n then
        let j :=
          if (j <? n)
             && less (key tosort (base + j)) (key tosort (base + j + 1))
          then j + 1 else j in
        if less (nth tmp v d) (key tosort (base + j))
        then sift t (store tosort (base + i) (deref tosort (base + j)))
                  base n tmp j (j + j)
        else (tosort, i)
      else (tosort, i)
  end.

Fixpoint build_heap (count : nat) (tosort : list nat) (base n l : Z)
  : list nat :=
  match count with
  | O => tosort
  | S c =>
      let tmp := deref tosort (base + l) in
      let '(tosort, i) :=
        sift (List.length tosort) tosort base n tmp l (Z.shiftl l 1) in
      build_heap c (store tosort (base + i) tmp) base n (l - 1)
  end.

Fixpoint drain_heap (count : nat) (tosort : list nat) (base n : Z)
  : list nat :=
  match count with
  | O => tosort
  | S c =>
      let tmp := deref tosort (base + n) in
      let tosort := store tosort (base + n) (deref tosort (base + 1)) in
      let n := n - 1 in
      let '(tosort, i) := sift (List.length tosort) tosort base n tmp 1 2 in
      drain_heap c (store tosort (base + i) tmp) base n
  end.

Definition aheapsort_ (tosort : list nat) (pl n : Z) : list nat :=
  let base := pl - 1 in
  let tosort :=
    build_heap (Z.to_nat (Z.shiftr n 1)) tosort base n (Z.shiftr n 1) in
  drain_heap (Z.to_nat (n - 1)) tosort base n.

(** The outer [while (1)] of [aquicksort_]: sort the current segment, then
    pop the next one from the stack, until the stack is empty. *)
Fixpoint segments (turns : nat) (tosort : list nat) (pl pr cdepth : Z)
         (stack : list (Z * Z * Z)) : list nat :=
  match turns with
  | O => tosort
  | S n =>
      let '(tosort, stack) :=
        if cdepth <? 0 then (aheapsort_ tosort pl (pr - pl + 1), stack)
        else
          let '(tosort, pl, pr, stack) :=
            partition_loop (List.length tosort) tosort pl pr cdepth stack in
          (insertion tosort pl pr, stack) in
      match stack with
      | [] => tosort
      | (l, r, depth) :: stack => segments n tosort l r depth stack
      end
  end.

(** The position of the highest set bit. *)
Definition npy_get_msb (num : Z) : Z := Z.log2 num.

Definition aquicksort_ (num : nat) : list nat :=
  segments (S num) (seq 0 num) 0 (Z.of_nat num - 1)
           (npy_get_msb (Z.of_nat num) * 2) [].

End ArgSort.

(** [ndarray.argsort(kind="quicksort")]: the positions of the rows in
    sorted order. *)
Definition argsort {A} (leb : A -> A -> bool) (l : list A) : list nat :=
  match l with
  | [] => []
  | d :: _ => aquicksort_ leb d l (List.length l)
  end.

End Numpy.

(** [l[idx]]: the rows of [l] at the positions [idx], in that order. *)
Definition take {A} (l : list A) (idx : list nat) : list A :=
  match l with
  | [] => []
  | d :: _ => map (fun i => nth i l d) idx
  end.

Fixpoint same_positions (a b : list nat) : bool :=
  match a, b with
  | [], [] => true
  | x :: a', y :: b' => Nat.eqb x y && same_positions a' b'
  | _, _ => false
  end.

Fixpoint sorted_by {A} (leb : A -> A -> bool) (l : list A) : bool :=
  match l with
  | [] => true
  | x :: t =>
      match t with
      | [] => true
      | y :: _ => leb x y && sorted_by leb t
      end
  end.

(** The positions [idx] are those of a frame of [n] rows, each once. *)
Definition is_rearrangement (idx : list nat) (n : nat) : bool :=
  same_positions (insertion_sort Nat.leb idx) (seq 0 n).

(** Sorting by numpy's quicksort.  The outcome of [Numpy.argsort] is
    checked: it is returned when it is a rearrangement of the rows in
    ascending order, which is what the algorithm is specified to give;
    insertion sort stands in otherwise. *)
Definition quicksort {A} (leb : A -> A -> bool) (l : list A) : list A :=
  let idx := Numpy.argsort leb l in
  if is_rearrangement idx (List.length l) && sorted_by leb (take l idx)
  then take l idx
  else insertion_sort leb l.


(** *** Text and pairs as group keys *)

Lemma string_compare_trans (a b c : string) :
  String.compare a b = Lt -> String.compare b c = Lt -> String.compare a c = Lt.
Proof.
  intros Hab Hbc.
  apply String_as_OT.cmp_lt in Hab.
  apply String_as_OT.cmp_lt in Hbc.
  apply String_as_OT.cmp_lt.
  exact (String_as_OT.lt_trans _ _ _ Hab Hbc).
Qed.

#[export] Instance string_Ord : Ord string := {|
  compare := String.compare;
  compare_eq := String_as_OT.cmp_eq;
  compare_antisym := String.compare_antisym;
  compare_trans := string_compare_trans
|}.

Section LexOrd.
Context {A B : Type} `{OA : Ord A} `{OB : Ord B}.

Lemma compare_refl_Eq {K} `{Ord K} (a : K) : compare a a = Eq.
Proof. apply compare_eq. reflexivity. Qed.

Lemma lex_compare_eq (p q : A * B) : lex_compare p q = Eq <-> p = q.
Proof.
  destruct p as [a b], q as [a' b']. unfold lex_compare. simpl.
  destruct (compare a a') eqn:E.
  - apply compare_eq in E. subst a'. rewrite compare_eq.
    split; [intros ->; reflexivity | intros [=]; assumption].
  - split; [discriminate | intros [= -> ->]].
    rewrite compare_refl_Eq in E. discriminate.
  - split; [discriminate | intros [= -> ->]].
    rewrite compare_refl_Eq in E. discriminate.
Qed.

Lemma lex_compare_antisym (p q : A * B) :
  lex_compare p q = CompOpp (lex_compare q p).
Proof.
  destruct p as [a b], q as [a' b']. unfold lex_compare. simpl.
  rewrite (compare_antisym a a').
  destruct (compare a' a); simpl; auto using compare_antisym.
Qed.

Lemma lex_compare_trans (p q r : A * B) :
  lex_compare p q = Lt -> lex_compare q r = Lt -> lex_compare p r = Lt.
Proof.
  destruct p as [a b], q as [a' b'], r as [a'' b'']. unfold lex_compare. simpl.
  destruct (compare a a') eqn:E1; try discriminate;
    destruct (compare a' a'') eqn:E2; try discriminate; intros H1 H2.
  - apply compare_eq in E1, E2. subst. rewrite compare_refl_Eq.
    eapply compare_trans; eassumption.
  - apply compare_eq in E1. subst. rewrite E2. reflexivity.
  - apply compare_eq in E2. subst. rewrite E1. reflexivity.
  - rewrite (compare_trans _ _ _ E1 E2). reflexivity.
Qed.

#[export] Instance pair_Ord : Ord (A * B) := {|
  compare := lex_compare;
  compare_eq := lex_compare_eq;
  compare_antisym := lex_compare_antisym;
  compare_trans := lex_compare_trans
|}.
End LexOrd.

(** *** Sorting algorithms *)

Section InsertionSort.
Context {A : Type} (leb : A -> A -> bool).

Lemma insert_sorted_perm (x : A) (l : list A) :
  Permutation (x :: l) (insert_sorted leb x l).
Proof.
  induction l as [| y t IH]; simpl; [reflexivity |].
  destruct (leb x y); [reflexivity |].
  rewrite perm_swap. constructor. exact IH.
Qed.

Lemma insertion_sort_perm (l : list A) : Permutation l (insertion_sort leb l).
Proof.
  induction l as [| x t IH]; simpl; [constructor |].
  rewrite <- insert_sorted_perm. constructor. exact IH.
Qed.

Hypothesis leb_order : total_order leb.

Lemma insert_sorted_sorted (x : A) (l : list A) :
  StronglySorted (fun a b => leb a b = true) l ->
  StronglySorted (fun a b => leb a b = true) (insert_sorted leb x l).
Proof.
  destruct leb_order as [Htot Htrans].
  induction 1 as [| y t Hs IH Hy]; simpl.
  - repeat constructor.
  - destruct (leb x y) eqn:E.
    + constructor; [constructor; assumption |].
      constructor; [exact E |].
      eapply Forall_impl; [| exact Hy].
      intros z Hz. exact (Htrans _ _ _ E Hz).
    + constructor; [exact IH |].
      eapply Permutation_Forall; [apply insert_sorted_perm |].
      constructor; [| exact Hy].
      destruct (Htot x y) as [H | H]; [congruence | exact H].
Qed.

Lemma insertion_sort_sorted (l : list A) :
  StronglySorted (fun a b => leb a b = true) (insertion_sort leb l).
Proof.
  induction l as [| x t IH]; simpl; [constructor |].
  apply insert_sorted_sorted. exact IH.
Qed.

End InsertionSort.

Lemma same_positions_eq (a b : list nat) : same_positions a b = true -> a = b.
Proof.
  revert b. induction a as [| x a IH]; intros [| y b]; simpl; intros H;
    try discriminate; [reflexivity |].
  apply andb_true_iff in H. destruct H as [Hxy Hab].
  apply Nat.eqb_eq in Hxy. subst y. rewrite (IH b Hab). reflexivity.
Qed.

Lemma take_all {A} (l : list A) : take l (seq 0 (List.length l)) = l.
Proof.
  destruct l as [| d t]; [reflexivity |]. unfold take.
  generalize d at 2. generalize (d :: t). clear d t.
  induction l as [| x t IH]; intros d; simpl; [reflexivity |].
  rewrite <- seq_shift, map_map. simpl. rewrite (IH d). reflexivity.
Qed.

Lemma take_rearrangement {A} (l : list A) (idx : list nat) :
  is_rearrangement idx (List.length l) = true -> Permutation l (take l idx).
Proof.
  intros H. apply same_positions_eq in H.
  assert (Hp : Permutation (seq 0 (List.length l)) idx).
  { rewrite <- H. apply Permutation_sym, insertion_sort_perm. }
  rewrite <- (take_all l) at 1.
  destruct l as [| d t]; [constructor |].
  unfold take. apply Permutation_map. exact Hp.
Qed.

Lemma sorted_by_Sorted {A} (leb : A -> A -> bool) (l : list A) :
  sorted_by leb l = true -> Sorted (fun a b => leb a b = true) l.
Proof.
  induction l as [| x t IH]; intros H; [constructor |].
  destruct t as [| y t'].
  - repeat constructor.
  - simpl in H. apply andb_true_iff in H. destruct H as [Hxy Ht].
    constructor; [apply IH; exact Ht | constructor; exact Hxy].
Qed.

Lemma quicksort_perm {A} (leb : A -> A -> bool) (l : list A) :
  Permutation l (quicksort leb l).
Proof.
  unfold quicksort.
  destruct (is_rearrangement (Numpy.argsort leb l) (List.length l)) eqn:E;
    simpl; [| apply insertion_sort_perm].
  destruct (sorted_by leb (take l (Numpy.argsort leb l)));
    [| apply insertion_sort_perm].
  apply take_rearrangement. exact E.
Qed.

Lemma quicksort_sorted {A} (leb : A -> A -> bool) (l : list A) :
  total_order leb ->
  StronglySorted (fun a b => leb a b = true) (quicksort leb l).
Proof.
  intros Hord. unfold quicksort.
  destruct (is_rearrangement (Numpy.argsort leb l) (List.length l)
            && sorted_by leb (take l (Numpy.argsort leb l))) eqn:E;
    [| apply insertion_sort_sorted; exact Hord].
  apply andb_true_iff in E. destruct E as [_ E].
  apply Sorted_StronglySorted.
  - intros a b c. apply (proj2 Hord).
  - apply sorted_by_Sorted. exact E.
Qed.

(** Two algorithms that meet the contract of [sort_values]. *)
Definition stable_kind : SortKind :=
  {| np_sort := @insertion_sort;
     np_sort_perm := @insertion_sort_perm;
     np_sort_sorted := fun A leb l H => @insertion_sort_sorted A leb H l |}.

Definition quicksort_kind : SortKind :=
  {| np_sort := @quicksort;
     np_sort_perm := @quicksort_perm;
     np_sort_sorted := @quicksort_sorted |}.

(** ** The engine of [main.py] *)

Module Raw.
(** One entry of [properties]; only [amount] is read. *)
Record Property : Type := { amount : pyval }.

(** One entry of ["contractorInvoices"]. *)
Record InvoiceRecord : Type := {
  category : string;
  heading : string;
  internalReference : string;
  invoiceDate : string;
  invoiceGross : Q;
  supplierInvoice : string;
  supplierName : string;
  properties : list Property
}.
End Raw.

Module Entry.
(** The dictionary that the loop of [process_invoices] appends. *)
Record t : Type := {
  category : string;
  heading : string;
  internalReference : string;
  invoiceDate : string;
  invoiceGross : Q;
  supplierInvoice : string;
  supplierName : string;
  propertyAmount : Q;
  propertyCount : nat
}.
End Entry.

Module Invoice.

(** A row of the DataFrame that [process_invoices] returns. *)
Record Row : Type := {
  category : string;
  heading : string;
  internalReference : string;
  invoiceDate : Timestamp;
  invoiceGross : Q;
  supplierInvoice : string;
  supplierName : string;
  propertyAmount : Q;
  propertyCount : nat;
  year : Z;
  month : Z;
  yearMonth : string
}.

(** The values of the three sidebar widgets. *)
Record FilterCriteria : Type := {
  date_range : list date;
  selected_category : string;
  selected_supplier : string
}.

Record KeyMetrics : Type := {
  total_invoices : nat;
  total_amount : Q;
  avg_invoice : option Q;
  unique_suppliers : nat
}.

(** A row of [category_monthly], after [reset_index] and the conversion
    of its [yearMonth] column. *)
Record CategoryMonth : Type := {
  cm_yearMonth : Timestamp;
  cm_category : string;
  cm_invoiceGross : Q
}.

(** A row of the table shown under "Invoice Details". *)
Record DisplayRow : Type := {
  Date : string;
  Category : string;
  Heading : string;
  Supplier : string;
  Supplier_Invoice : string;
  Invoice_Gross : Q;
  Property_Amount : Q;
  Property_Count : nat
}.

(** *** [process_invoices] *)

Definition invoice_entry (invoice : Raw.InvoiceRecord) : result Entry.t :=
  amount <- py_sum (map Raw.amount (Raw.properties invoice)) ;;
  Ok {| Entry.category := Raw.category invoice;
        Entry.heading := Raw.heading invoice;
        Entry.internalReference := Raw.internalReference invoice;
        Entry.invoiceDate := Raw.invoiceDate invoice;
        Entry.invoiceGross := Raw.invoiceGross invoice;
        Entry.supplierInvoice := Raw.supplierInvoice invoice;
        Entry.supplierName := Raw.supplierName invoice;
        Entry.propertyAmount := amount;
        Entry.propertyCount := List.length (Raw.properties invoice) |}.

(** The [for] loop: [invoices.append({...})] for each invoice in turn. *)
Fixpoint append_invoices (data : list Raw.InvoiceRecord)
         (invoices : list Entry.t) : result (list Entry.t) :=
  match data with
  | [] => Ok invoices
  | invoice :: rest =>
      e <- invoice_entry invoice ;;
      append_invoices rest (invoices ++ [e])
  end.

Definition with_dates (e : Entry.t) (t : Timestamp) : Row :=
  {| category := Entry.category e;
     heading := Entry.heading e;
     internalReference := Entry.internalReference e;
     invoiceDate := t;
     invoiceGross := Entry.invoiceGross e;
     supplierInvoice := Entry.supplierInvoice e;
     supplierName := Entry.supplierName e;
     propertyAmount := Entry.propertyAmount e;
     propertyCount := Entry.propertyCount e;
     year := dt_year t;
     month := dt_month t;
     yearMonth := period_M_str t |}.

Section Parser.
(** [pd.to_datetime] on one cell: [None] when the text is not a date. *)
Variable to_datetime : string -> option Timestamp.

(** [pd.to_datetime(column)] on a column of texts that pandas either reads
    as dates or rejects: the first rejected cell raises.  (Blank and
    NaT-like text, which pandas turns into NaT, is not covered.) *)
Fixpoint to_datetime_column (col : list string) : result (list Timestamp) :=
  match col with
  | [] => Ok []
  | s :: rest =>
      match to_datetime s with
      | Some t => ts <- to_datetime_column rest ;; Ok (t :: ts)
      | None => Raise (Exception "ValueError")
      end
  end.

(** A DataFrame built from an empty list has no column, so that
    [df["invoiceDate"]] raises [KeyError] on it. *)
Definition process_invoices (data : list Raw.InvoiceRecord)
  : result (list Row) :=
  invoices <- append_invoices data [] ;;
  match invoices with
  | [] => Raise (Exception "KeyError")
  | _ :: _ =>
      dates <- to_datetime_column (map Entry.invoiceDate invoices) ;;
      Ok (map (fun p => with_dates (fst p) (snd p)) (combine invoices dates))
  end.
End Parser.

(** *** The sidebar filters *)

Definition in_date_range (start_date end_date : date) (r : Row) : bool :=
  (start_date <=? dt_date (invoiceDate r))
  && (dt_date (invoiceDate r) <=? end_date).

Definition filter_date_range (date_range : list date) (df : list Row)
  : list Row :=
  match date_range with
  | [start_date; end_date] => filter (in_date_range start_date end_date) df
  | _ => df
  end.

Definition filter_category (selected_category : string) (df : list Row)
  : list Row :=
  if negb (String.eqb selected_category "All")
  then filter (fun r => String.eqb (category r) selected_category) df
  else df.

Definition filter_supplier (selected_supplier : string) (df : list Row)
  : list Row :=
  if negb (String.eqb selected_supplier "All")
  then filter (fun r => String.eqb (supplierName r) selected_supplier) df
  else df.

(** [df_filtered] as [main] computes it: date range, category, supplier. *)
Definition apply_filters (c : FilterCriteria) (df : list Row) : list Row :=
  filter_supplier (selected_supplier c)
    (filter_category (selected_category c)
       (filter_date_range (date_range c) df)).

(** The three steps, and a run of steps in a given order. *)
Definition filter_steps (c : FilterCriteria) : list (list Row -> list Row) :=
  [ filter_date_range (date_range c);
    filter_category (selected_category c);
    filter_supplier (selected_supplier c) ].

Definition run_steps (steps : list (list Row -> list Row)) (df : list Row)
  : list Row :=
  fold_left (fun acc step => step acc) steps df.

(** *** Key metrics *)

Definition key_metrics (df_filtered : list Row) : KeyMetrics :=
  {| total_invoices := List.length df_filtered;
     total_amount := series_sum (map invoiceGross df_filtered);
     avg_invoice := series_mean (map invoiceGross df_filtered);
     unique_suppliers := nunique (map supplierName df_filtered) |}.

(** *** Pagination *)

(** [(total_rows - 1) // rows_per_page + 1], with Python's floor division. *)
Definition total_pages (total_rows rows_per_page : Z) : Z :=
  (total_rows - 1) / rows_per_page + 1.

Definition display_df_page (display_df : list DisplayRow)
           (rows_per_page page : Z) : list DisplayRow :=
  let total_rows := Z.of_nat (List.length display_df) in
  if total_pages total_rows rows_per_page >? 1 then
    let start_idx := (page - 1) * rows_per_page in
    let end_idx := start_idx + rows_per_page in
    iloc start_idx end_idx display_df
  else display_df.

Section Sorting.
(** The algorithm behind the default [kind] of [sort_values]. *)
Variable kind : SortKind.
Variable to_datetime : string -> option Timestamp.

(** *** Grouped totals *)

Definition by_total {K} (a b : K * Q) : bool := Qle_bool (snd a) (snd b).

Definition category_totals (df_filtered : list Row) : list (string * Q) :=
  sort_values kind by_total false (groupby_sum category invoiceGross df_filtered).

Definition top_categories (df_filtered : list Row) : list string :=
  map fst (firstn 5 (category_totals df_filtered)).

(** [pd.to_datetime] over the [yearMonth] column of [category_monthly],
    with the same coverage as [to_datetime_column]. *)
Fixpoint month_column (l : list (string * string * Q))
  : result (list CategoryMonth) :=
  match l with
  | [] => Ok []
  | (ym, c, s) :: rest =>
      match to_datetime ym with
      | Some t =>
          cms <- month_column rest ;;
          Ok ({| cm_yearMonth := t; cm_category := c; cm_invoiceGross := s |} :: cms)
      | None => Raise (Exception "ValueError")
      end
  end.

(** The key of [groupby(["yearMonth", "category"])]. *)
Definition yearMonth_category (r : Row) : string * string :=
  (yearMonth r, category r).

Definition by_month (a b : CategoryMonth) : bool :=
  cm_yearMonth a <=? cm_yearMonth b.

Definition category_monthly (df_filtered : list Row)
  : result (list CategoryMonth) :=
  cms <- month_column
           (groupby_sum yearMonth_category invoiceGross df_filtered) ;;
  Ok (sort_values kind by_month true cms).

Definition category_monthly_filtered (df_filtered : list Row)
  : result (list CategoryMonth) :=
  cms <- category_monthly df_filtered ;;
  Ok (filter (fun e => isin (cm_category e) (top_categories df_filtered)) cms).

(** *** The display table *)

Definition by_invoiceDate (a b : Row) : bool :=
  invoiceDate a <=? invoiceDate b.

(** The selected columns after [sort_values("invoiceDate", ascending=False)]. *)
Definition display_sorted (df_filtered : list Row) : list Row :=
  sort_values kind by_invoiceDate false df_filtered.

Definition display_row (r : Row) : DisplayRow :=
  {| Date := strftime_Ymd (invoiceDate r);
     Category := category r;
     Heading := heading r;
     Supplier := supplierName r;
     Supplier_Invoice := supplierInvoice r;
     Invoice_Gross := invoiceGross r;
     Property_Amount := propertyAmount r;
     Property_Count := propertyCount r |}.

Definition display_df (df_filtered : list Row) : list DisplayRow :=
  map display_row (display_sorted df_filtered).
End Sorting.

End Invoice.
Import Invoice.

(** ** Notions used to state the properties *)

Module Spec.

(** [l1] is [l2] with some elements left out, the others in place. *)
Inductive Subsequence {A : Type} : list A -> list A -> Prop :=
| sub_nil : Subsequence [] []
| sub_keep x l1 l2 : Subsequence l1 l2 -> Subsequence (x :: l1) (x :: l2)
| sub_drop x l1 l2 : Subsequence l1 l2 -> Subsequence l1 (x :: l2).

(** The ceiling of [n / p] as a rational number. *)
Definition ceiling_div (n p : Z) : Z := Qceiling (inject_Z n / inject_Z p).

(** The instants from the first of [start_date] to the last of [end_date]. *)
Definition within_days (start_date end_date : date) (t : Timestamp) : bool :=
  (start_date * ns_per_day <=? t) && (t <? (end_date + 1) * ns_per_day).

(** The sum of a sequence of amounts. *)
Fixpoint sum_amounts (l : list Q) : Q :=
  match l with
  | [] => 0%Q
  | q :: t => (q + sum_amounts t)%Q
  end.

(** The invoiceGross total of the rows of [df] whose key is [k]. *)
Definition group_total {R K} `{Ord K} (key : R -> K) (val : R -> Q) (k : K)
           (df : list R) : Q :=
  sum_amounts (map val (filter (fun r => eqb_key (key r) k) df)).

(** The numbers among a sequence of JSON scalars. *)
Definition numbers (vs : list pyval) : list Q :=
  flat_map (fun v => match v with PyNum q => [q] | _ => [] end) vs.

(** A record has only numeric property amounts. *)
Definition numeric_amounts (invoice : Raw.InvoiceRecord) : Prop :=
  Forall (fun v => is_numeric v = true) (map Raw.amount (Raw.properties invoice)).

(** The property amounts of a record. *)
Definition amounts (invoice : Raw.InvoiceRecord) : list Q :=
  numbers (map Raw.amount (Raw.properties invoice)).

(** [e] is the dictionary built from [invoice]. *)
Definition entry_of (invoice : Raw.InvoiceRecord) (e : Entry.t) : Prop :=
  Entry.category e = Raw.category invoice
  /\ Entry.heading e = Raw.heading invoice
  /\ Entry.internalReference e = Raw.internalReference invoice
  /\ Entry.invoiceDate e = Raw.invoiceDate invoice
  /\ Entry.invoiceGross e = Raw.invoiceGross invoice
  /\ Entry.supplierInvoice e = Raw.supplierInvoice invoice
  /\ Entry.supplierName e = Raw.supplierName invoice
  /\ (Entry.propertyAmount e == sum_amounts (amounts invoice))%Q
  /\ Entry.propertyCount e = List.length (Raw.properties invoice).

(** [r] is the normalized row of [invoice]. *)
Definition normalized (to_datetime : string -> option Timestamp)
           (invoice : Raw.InvoiceRecord) (r : Row) : Prop :=
  category r = Raw.category invoice
  /\ heading r = Raw.heading invoice
  /\ internalReference r = Raw.internalReference invoice
  /\ to_datetime (Raw.invoiceDate invoice) = Some (invoiceDate r)
  /\ invoiceGross r = Raw.invoiceGross invoice
  /\ supplierInvoice r = Raw.supplierInvoice invoice
  /\ supplierName r = Raw.supplierName invoice
  /\ (propertyAmount r == sum_amounts (amounts invoice))%Q
  /\ propertyCount r = List.length (Raw.properties invoice)
  /\ year r = dt_year (invoiceDate r)
  /\ month r = dt_month (invoiceDate r)
  /\ yearMonth r = period_M_str (invoiceDate r).

(** Rows with the same calendar instant as [t]. *)
Definition dated (t : Timestamp) (r : Row) : bool := invoiceDate r =? t.

(** The groups of a [groupby] come in strictly increasing order of key. *)
Definition keys_lt {K} `{Ord K} (a b : K * Q) : Prop :=
  compare (fst a) (fst b) = Lt.

(** [e] is the row of [category_monthly] made from the group [g]. *)
Definition month_entry (to_datetime : string -> option Timestamp)
           (g : string * string * Q) (e : CategoryMonth) : Prop :=
  to_datetime (fst (fst g)) = Some (cm_yearMonth e)
  /\ cm_category e = snd (fst g)
  /\ cm_invoiceGross e = snd g.

(** A step that selects rows by a boolean mask. *)
Definition is_mask (step : list Row -> list Row) : Prop :=
  exists p, forall df, step df = filter p df.

End Spec.
Import Spec.

(** ** Sample data: the three invoices of the specification's scenario *)

Module Sample.

Definition invoice (cat sup ref day : string) (gross : Q) (props : list pyval)
  : Raw.InvoiceRecord :=
  {| Raw.category := cat;
     Raw.heading := "Works";
     Raw.internalReference := ref;
     Raw.invoiceDate := day;
     Raw.invoiceGross := gross;
     Raw.supplierInvoice := ref;
     Raw.supplierName := sup;
     Raw.properties := map (fun a => {| Raw.amount := a |}) props |}.

Definition scenario : list Raw.InvoiceRecord :=
  [ invoice "Repairs" "A" "R1" "2024-01-10" 100 [PyNum 60; PyNum 40];
    invoice "Repairs" "B" "R2" "2024-02-05" 200 [PyNum 200];
    invoice "Cleaning" "A" "R3" "2024-02-20" 50 [] ].

Definition rows_of (r : result (list Row)) : list Row :=
  match r with Ok rows => rows | Raise _ => [] end.

Definition scenario_rows : list Row :=
  Eval vm_compute in rows_of (process_invoices iso_to_datetime scenario).

(** A record whose property amount is text. *)
Definition text_amount : list Raw.InvoiceRecord :=
  [ invoice "Repairs" "A" "R1" "2024-01-10" 100 [PyNum 60; PyStr "forty"] ].

(** Eighteen invoices of the same day, "R01" to "R18". *)
Definition eighteen_same_day : list Row :=
  Eval vm_compute in
    rows_of (process_invoices iso_to_datetime
               (map (fun i => invoice "Repairs" "A"
                                      (String "R" (pad2 (Z.of_nat i)))
                                      "2024-01-10" 100 [])
                    (seq 1 18))).

(** Two invoices of the same day. *)
Definition same_day : list Row :=
  Eval vm_compute in
    rows_of (process_invoices iso_to_datetime
               [ invoice "Repairs" "A" "R1" "2024-01-10" 100 [];
                 invoice "Cleaning" "B" "R2" "2024-01-10" 200 [] ]).

(** Six categories, of which the smallest, "Gardening", is not in the top 5. *)
Definition six_categories : list Row :=
  Eval vm_compute in
    rows_of (process_invoices iso_to_datetime
               [ invoice "Gardening" "A" "R1" "2024-01-10" 10 [];
                 invoice "Repairs" "A" "R2" "2024-01-11" 60 [];
                 invoice "Cleaning" "B" "R3" "2024-01-12" 20 [];
                 invoice "Lifts" "C" "R4" "2024-02-01" 30 [];
                 invoice "Insurance" "D" "R5" "2024-02-02" 40 [];
                 invoice "Security" "E" "R6" "2024-02-03" 50 [];
                 invoice "Repairs" "B" "R7" "2024-02-04" 5 [] ]).

(** The day number of a calendar date. *)
Definition day (y m d : Z) : date := days_from_civil y m d.

Definition criteria_A : FilterCriteria :=
  {| date_range := [day 2024 1 1; day 2024 12 31];
     selected_category := "All";
     selected_supplier := "A" |}.

End Sample.

(** ** The rest of [main]: widgets, the other charts, the page caption *)

Module Views.

(** [Series.min()] and [Series.max()] of a datetime column: NaT ([None])
    on an empty column. *)
Fixpoint series_min (l : list Timestamp) : option Timestamp :=
  match l with
  | [] => None
  | t :: rest =>
      match series_min rest with
      | None => Some t
      | Some m => Some (Z.min t m)
      end
  end.

Fixpoint series_max (l : list Timestamp) : option Timestamp :=
  match l with
  | [] => None
  | t :: rest =>
      match series_max rest with
      | None => Some t
      | Some m => Some (Z.max t m)
      end
  end.

(** [df["invoiceDate"].min().date()], [df["invoiceDate"].max().date()] *)
Definition min_date (df : list Row) : option date :=
  option_map dt_date (series_min (map invoiceDate df)).

Definition max_date (df : list Row) : option date :=
  option_map dt_date (series_max (map invoiceDate df)).

(** The initial value of the "Date Range" widget: [(min_date, max_date)]. *)
Definition default_date_range (df : list Row) : option (list date) :=
  match min_date df, max_date df with
  | Some lo, Some hi => Some [lo; hi]
  | _, _ => None
  end.

(** The builtin [sorted] on a list of text. *)
Definition py_sorted (l : list string) : list string :=
  insertion_sort String.leb l.

(** The choices of the "Category" and "Supplier" widgets:
    [["All"] + sorted(column.unique().tolist())]. *)
Definition categories (df_filtered : list Row) : list string :=
  "All"%string :: py_sorted (unique (map category df_filtered)).

Definition suppliers (df_filtered : list Row) : list string :=
  "All"%string :: py_sorted (unique (map supplierName df_filtered)).

(** [groupby(key).size()]: the groups ordered by key, each with the number
    of its rows. *)
Fixpoint group_incr {K} `{Ord K} (k : K) (acc : list (K * nat))
  : list (K * nat) :=
  match acc with
  | [] => [(k, 1%nat)]
  | (k', n) :: rest =>
      match compare k k' with
      | Eq => (k', S n) :: rest
      | Lt => (k, 1%nat) :: (k', n) :: rest
      | Gt => (k', n) :: group_incr k rest
      end
  end.

Definition groupby_size {R K} `{Ord K} (key : R -> K) (df : list R)
  : list (K * nat) :=
  fold_left (fun acc r => group_incr (key r) acc) df [].

(** The numbers of the caption under the table:
    [start_idx + 1], [min(end_idx, total_rows)], [total_rows]. *)
Definition caption (display_df : list DisplayRow) (rows_per_page page : Z)
  : Z * Z * Z :=
  let total_rows := Z.of_nat (List.length display_df) in
  let start_idx := (page - 1) * rows_per_page in
  let end_idx := start_idx + rows_per_page in
  (start_idx + 1, Z.min end_idx total_rows, total_rows).

(** The pages 1 to [total_pages], one after the other. *)
Definition all_pages (display_df : list DisplayRow) (rows_per_page : Z)
  : list DisplayRow :=
  let total_rows := Z.of_nat (List.length display_df) in
  flat_map (fun p => display_df_page display_df rows_per_page (Z.of_nat p))
           (seq 1 (Z.to_nat (total_pages total_rows rows_per_page))).

Section Charts.
Variable kind : SortKind.
Variable to_datetime : string -> option Timestamp.

(** "Top 10 Suppliers":
    [groupby("supplierName")["invoiceGross"].sum()
       .sort_values(ascending=False).head(10)] *)
Definition supplier_ranking (df_filtered : list Row) : list (string * Q) :=
  sort_values kind by_total false
              (groupby_sum supplierName invoiceGross df_filtered).

Definition supplier_totals (df_filtered : list Row) : list (string * Q) :=
  firstn 10 (supplier_ranking df_filtered).

(** [pd.to_datetime] over the [yearMonth] column of a frame with one row
    per month, with the same coverage as [to_datetime_column]. *)
Fixpoint month_index {V : Type} (l : list (string * V))
  : result (list (Timestamp * V)) :=
  match l with
  | [] => Ok []
  | (ym, v) :: rest =>
      match to_datetime ym with
      | Some t => ms <- month_index rest ;; Ok ((t, v) :: ms)
      | None => Raise (Exception "ValueError")
      end
  end.

Definition by_yearMonth {V : Type} (a b : Timestamp * V) : bool :=
  fst a <=? fst b.

(** "Spending Over Time":
    [groupby("yearMonth")["invoiceGross"].sum().reset_index()], the month
    text read back as a date, then [sort_values("yearMonth")]. *)
Definition monthly_totals (df_filtered : list Row)
  : result (list (Timestamp * Q)) :=
  ms <- month_index (groupby_sum yearMonth invoiceGross df_filtered) ;;
  Ok (sort_values kind by_yearMonth true ms).

(** "Invoices by Month":
    [groupby("yearMonth").size().reset_index(name="count")], then as above. *)
Definition monthly_counts (df_filtered : list Row)
  : result (list (Timestamp * nat)) :=
  ms <- month_index (groupby_size yearMonth df_filtered) ;;
  Ok (sort_values kind by_yearMonth true ms).

End Charts.

End Views.
Import Views.

(** [groupby(key)["invoiceGross"].sum().sort_values(ascending=False)], the
    expression behind the category and supplier charts. *)
Definition ranked_totals (kind : SortKind) (key : Row -> string)
           (df_filtered : list Row) : list (string * Q) :=
  sort_values kind by_total false (groupby_sum key invoiceGross df_filtered).

(** The sum of a column of counts. *)
Definition sum_counts (l : list nat) : nat := fold_right Nat.add 0%nat l.

(** A display table of twelve rows. *)
Definition twelve_rows : list DisplayRow :=
  Eval vm_compute in
    map display_row
        (Sample.six_categories ++ Sample.scenario_rows ++ Sample.same_day).

(** ** Pagination *)

Lemma floor_ceiling_div (n p : Z) :
  0 < p -> (n - 1) / p + 1 = - ((- n) / p).
Proof.
  intros Hp.
  pose proof (Z.div_mod (n - 1) p) as H1.
  pose proof (Z.div_mod (- n) p) as H2.
  pose proof (Z.mod_pos_bound (n - 1) p Hp) as B1.
  pose proof (Z.mod_pos_bound (- n) p Hp) as B2.
  specialize (H1 ltac:(lia)). specialize (H2 ltac:(lia)).
  nia.
Qed.

Lemma total_pages_ceiling_div (n p : Z) :
  1 <= p -> total_pages n p = ceiling_div n p.
Proof.
  intros Hp. unfold total_pages, ceiling_div, Qceiling.
  rewrite floor_ceiling_div by lia.
  destruct p as [|pp|pp]; try lia.
  unfold Qdiv, Qinv, Qmult, Qopp, Qfloor, inject_Z. simpl Qnum. simpl Qden.
  rewrite Z.mul_1_r. reflexivity.
Qed.

(** C1 (as the code has it): for a page size of at least 1, [total_pages] is
    the ceiling of total_rows / page_size; it is 0 for the empty row set,
    which is then displayed whole (an empty table) whatever the page, and
    at least 1 for any other row set. *)
Theorem total_pages_is_ceiling (display : list DisplayRow) (rows_per_page : Z) :
  1 <= rows_per_page ->
  total_pages (Z.of_nat (List.length display)) rows_per_page
  = ceiling_div (Z.of_nat (List.length display)) rows_per_page
  /\ (display = [] ->
      total_pages (Z.of_nat (List.length display)) rows_per_page = 0
      /\ forall page, display_df_page display rows_per_page page = [])
  /\ (display <> [] ->
      1 <= total_pages (Z.of_nat (List.length display)) rows_per_page).
Proof.
  intros Hp. split; [| split].
  - apply total_pages_ceiling_div. assumption.
  - intros ->. simpl.
    assert (H0 : total_pages 0 rows_per_page = 0).
    { unfold total_pages. simpl.
      assert (-1 / rows_per_page = -1)
        by (symmetry; apply Z.div_unique with (r := rows_per_page - 1); lia).
      lia. }
    split; [exact H0 |].
    intros page. unfold display_df_page. simpl. rewrite H0. reflexivity.
  - intros Hne. unfold total_pages.
    destruct display as [| r t]; [contradiction |].
    assert (0 <= (Z.of_nat (List.length (r :: t)) - 1) / rows_per_page).
    { apply Z.div_pos; simpl List.length; lia. }
    lia.
Qed.

Lemma total_pages_is_ceiling_witness :
  1 <= 10
  /\ total_pages (Z.of_nat (List.length (map display_row Sample.scenario_rows))) 10
     = ceiling_div (Z.of_nat (List.length (map display_row Sample.scenario_rows))) 10
  /\ 1 <= total_pages (Z.of_nat (List.length (map display_row Sample.scenario_rows))) 10.
Proof.
  split; [lia |].
  destruct (total_pages_is_ceiling
              (map display_row Sample.scenario_rows) 10 ltac:(lia))
    as [H [_ H1]].
  split; [exact H | apply H1; discriminate].
Defined.

(** C1, as stated, fails on the empty row set: [total_pages] is 0 there,
    not 1. *)
Lemma total_pages_empty_counterexample :
  let display : list DisplayRow := [] in
  ~ (1 <= total_pages (Z.of_nat (List.length display)) 25)
  /\ total_pages (Z.of_nat (List.length display)) 25 = 0.
Proof.
  simpl. split; [| reflexivity].
  change (total_pages 0 25) with 0. lia.
Qed.

(** ** The filters *)

Lemma dt_date_within (start_date end_date : date) (t : Timestamp) :
  (start_date <=? dt_date t) && (dt_date t <=? end_date)
  = within_days start_date end_date t.
Proof.
  unfold within_days, dt_date, ns_per_day.
  pose proof (Z.div_mod t 86400000000000 ltac:(lia)) as Hd.
  pose proof (Z.mod_pos_bound t 86400000000000 ltac:(lia)) as Hb.
  destruct (start_date <=? t / 86400000000000) eqn:E1;
    destruct (t / 86400000000000 <=? end_date) eqn:E2;
    destruct (start_date * 86400000000000 <=? t) eqn:E3;
    destruct (t <? (end_date + 1) * 86400000000000) eqn:E4;
    try reflexivity; exfalso;
    rewrite ?Z.leb_le, ?Z.leb_gt, ?Z.ltb_lt, ?Z.ltb_ge in *; lia.
Qed.

(** C4 (as the code has it): with two bounds the date-range filter keeps,
    in order, exactly the rows whose invoiceDate falls on a day from
    [start_date] to [end_date] inclusive, whatever the time of day; with any
    other number of bound values (none, one, three or more) it returns the
    row set unfiltered. *)
Theorem date_range_filter (range : list date) (df : list Row) :
  (forall start_date end_date, range = [start_date; end_date] ->
     filter_date_range range df
     = filter (fun r => within_days start_date end_date (invoiceDate r)) df
     /\ forall r, In r (filter_date_range range df) <->
                  In r df /\ start_date <= dt_date (invoiceDate r) <= end_date)
  /\ (List.length range <> 2%nat -> filter_date_range range df = df).
Proof.
  split.
  - intros start_date end_date ->. simpl. split.
    + apply filter_ext. intros r. apply dt_date_within.
    + intros r. rewrite filter_In. unfold in_date_range.
      rewrite andb_true_iff, !Z.leb_le. tauto.
  - intros Hlen. destruct range as [| a [| b [| c t]]]; simpl in *;
      try reflexivity. contradiction.
Qed.

Lemma date_range_filter_witness :
  filter_date_range [Sample.day 2024 2 1; Sample.day 2024 2 29] Sample.scenario_rows
  = filter (fun r => within_days (Sample.day 2024 2 1) (Sample.day 2024 2 29)
                                 (invoiceDate r)) Sample.scenario_rows
  /\ filter_date_range [Sample.day 2024 2 1] Sample.scenario_rows
     = Sample.scenario_rows.
Proof.
  pose proof (date_range_filter [Sample.day 2024 2 1; Sample.day 2024 2 29]
                                Sample.scenario_rows) as [H _].
  pose proof (date_range_filter [Sample.day 2024 2 1] Sample.scenario_rows)
    as [_ H1].
  split.
  - exact (proj1 (H _ _ eq_refl)).
  - apply H1. simpl. lia.
Defined.

(** C4, as stated, fails when one bound is supplied: the rows are not
    restricted to that bound, neither read as a start nor as an end. *)
Lemma date_range_one_bound_counterexample :
  let bound := Sample.day 2024 2 1 in
  filter_date_range [bound] Sample.scenario_rows = Sample.scenario_rows
  /\ filter_date_range [bound] Sample.scenario_rows
     <> filter (fun r => bound <=? dt_date (invoiceDate r)) Sample.scenario_rows
  /\ filter_date_range [bound] Sample.scenario_rows
     <> filter (fun r => dt_date (invoiceDate r) <=? bound) Sample.scenario_rows.
Proof.
  simpl. repeat split.
  - intros H. apply (f_equal (@List.length Row)) in H.
    vm_compute in H. discriminate.
  - intros H. apply (f_equal (@List.length Row)) in H.
    vm_compute in H. discriminate.
Qed.

(** *** Every step is a boolean mask *)

Lemma filter_all {A} (l : list A) : filter (fun _ => true) l = l.
Proof. induction l as [| x t IH]; simpl; [| rewrite IH]; reflexivity. Qed.

Lemma filter_twice {A} (p q : A -> bool) (l : list A) :
  filter p (filter q l) = filter (fun x => q x && p x) l.
Proof.
  induction l as [| x t IH]; simpl; [reflexivity |].
  destruct (q x); simpl; [destruct (p x) |]; rewrite IH; reflexivity.
Qed.

Lemma filter_swap {A} (p q : A -> bool) (l : list A) :
  filter p (filter q l) = filter q (filter p l).
Proof.
  rewrite !filter_twice. apply filter_ext. intros x. apply andb_comm.
Qed.

Lemma filter_date_range_mask (range : list date) :
  is_mask (filter_date_range range).
Proof.
  destruct range as [| a [| b [| c t]]];
    try (exists (fun _ => true); intros df; simpl; symmetry; apply filter_all).
  exists (in_date_range a b). reflexivity.
Qed.

Lemma filter_category_mask (sel : string) : is_mask (filter_category sel).
Proof.
  unfold filter_category, is_mask. destruct (negb (sel =? "All")%string).
  - eexists. reflexivity.
  - exists (fun _ => true). intros df. symmetry. apply filter_all.
Qed.

Lemma filter_supplier_mask (sel : string) : is_mask (filter_supplier sel).
Proof.
  unfold filter_supplier, is_mask. destruct (negb (sel =? "All")%string).
  - eexists. reflexivity.
  - exists (fun _ => true). intros df. symmetry. apply filter_all.
Qed.

Lemma filter_steps_masks (c : FilterCriteria) : Forall is_mask (filter_steps c).
Proof.
  repeat constructor;
    auto using filter_date_range_mask, filter_category_mask, filter_supplier_mask.
Qed.

Lemma run_steps_permutation (s1 s2 : list (list Row -> list Row)) :
  Permutation s1 s2 -> Forall is_mask s1 ->
  forall df, run_steps s1 df = run_steps s2 df.
Proof.
  induction 1 as [| x l l' Hp IH | x y l | l l' l'' H1 IH1 H2 IH2];
    intros Hm df.
  - reflexivity.
  - inversion Hm; subst. simpl. apply IH. assumption.
  - inversion Hm as [| ? ? [p Hy] Hm']; subst.
    inversion Hm' as [| ? ? [q Hx] _]; subst.
    simpl. rewrite !Hy, !Hx, filter_swap. reflexivity.
  - rewrite IH1 by assumption. apply IH2.
    eapply Permutation_Forall; eassumption.
Qed.

Lemma apply_filters_mask (c : FilterCriteria) :
  exists p, forall df, apply_filters c df = filter p df.
Proof.
  destruct (filter_date_range_mask (date_range c)) as [p1 H1].
  destruct (filter_category_mask (selected_category c)) as [p2 H2].
  destruct (filter_supplier_mask (selected_supplier c)) as [p3 H3].
  exists (fun r => p1 r && (p2 r && p3 r)). intros df.
  unfold apply_filters. rewrite H3, H2, H1, !filter_twice. reflexivity.
Qed.

(** C6: filtering a filtered set again with the same criteria changes
    nothing, and the three steps (date range, category, supplier) give the
    same rows in whatever order they are applied. *)
Theorem filters_idempotent_commutative (c : FilterCriteria) (df : list Row) :
  apply_filters c (apply_filters c df) = apply_filters c df
  /\ forall steps, Permutation steps (filter_steps c) ->
                   run_steps steps df = apply_filters c df.
Proof.
  split.
  - destruct (apply_filters_mask c) as [p Hp].
    rewrite !Hp, filter_twice. apply filter_ext.
    intros r. destruct (p r); reflexivity.
  - intros steps Hperm.
    rewrite (run_steps_permutation steps (filter_steps c) Hperm).
    + reflexivity.
    + eapply Permutation_Forall;
        [apply Permutation_sym; eassumption | apply filter_steps_masks].
Qed.

Lemma filters_idempotent_commutative_witness :
  run_steps [ filter_supplier (selected_supplier Sample.criteria_A);
              filter_category (selected_category Sample.criteria_A);
              filter_date_range (date_range Sample.criteria_A) ]
            Sample.scenario_rows
  = apply_filters Sample.criteria_A Sample.scenario_rows.
Proof.
  apply (filters_idempotent_commutative Sample.criteria_A Sample.scenario_rows).
  exact (Permutation_rev
           [ filter_supplier (selected_supplier Sample.criteria_A);
             filter_category (selected_category Sample.criteria_A);
             filter_date_range (date_range Sample.criteria_A) ]).
Defined.

(** *** Filtering keeps a subsequence *)

Lemma Subsequence_refl {A} (l : list A) : Subsequence l l.
Proof. induction l; constructor; assumption. Qed.

Lemma Subsequence_trans {A} (l1 l2 l3 : list A) :
  Subsequence l1 l2 -> Subsequence l2 l3 -> Subsequence l1 l3.
Proof.
  intros H12 H23. revert l1 H12.
  induction H23 as [| x l2 l3 H IH | x l2 l3 H IH]; intros l1 H12.
  - assumption.
  - inversion H12; subst; constructor; auto.
  - constructor. auto.
Qed.

Lemma Subsequence_In {A} (l1 l2 : list A) :
  Subsequence l1 l2 -> forall x, In x l1 -> In x l2.
Proof.
  induction 1; intros y Hy; simpl in *; intuition.
Qed.

Lemma filter_Subsequence {A} (p : A -> bool) (l : list A) :
  Subsequence (filter p l) l.
Proof.
  induction l as [| x t IH]; simpl; [constructor |].
  destruct (p x); constructor; assumption.
Qed.

Lemma mask_Subsequence (step : list Row -> list Row) (df : list Row) :
  is_mask step -> Subsequence (step df) df.
Proof. intros [p Hp]. rewrite Hp. apply filter_Subsequence. Qed.

(** C10: each filter step, and so the whole filter, returns a subsequence
    of the rows it is given: the surviving rows are the input rows
    themselves, in their original relative order. *)
Theorem filters_return_subsequence (c : FilterCriteria) (df : list Row) :
  Subsequence (filter_date_range (date_range c) df) df
  /\ Subsequence (filter_category (selected_category c) df) df
  /\ Subsequence (filter_supplier (selected_supplier c) df) df
  /\ Subsequence (apply_filters c df) df
  /\ forall r, In r (apply_filters c df) -> In r df.
Proof.
  assert (Hall : Subsequence (apply_filters c df) df).
  { destruct (apply_filters_mask c) as [p Hp]. rewrite Hp.
    apply filter_Subsequence. }
  repeat split;
    auto using mask_Subsequence, filter_date_range_mask,
      filter_category_mask, filter_supplier_mask.
  apply Subsequence_In. assumption.
Qed.

(** ** Key metrics *)

(** C9: on an empty filtered set the key metrics are a count of 0, a total
    of 0, no mean (NaN, an absent value) and 0 distinct suppliers; the mean
    is absent on the empty set only, and nothing is divided by zero. *)
Theorem key_metrics_empty :
  key_metrics [] = {| total_invoices := 0;
                      total_amount := 0;
                      avg_invoice := None;
                      unique_suppliers := 0 |}
  /\ forall df_filtered,
       avg_invoice (key_metrics df_filtered) = None <-> df_filtered = [].
Proof.
  split; [reflexivity |].
  intros [| r t]; simpl; split; intros H; try reflexivity; discriminate.
Qed.

(** ** Normalisation *)

Lemma py_sum_from_numbers (vs : list pyval) :
  Forall (fun v => is_numeric v = true) vs ->
  forall acc, exists q,
    py_sum_from acc vs = Ok q /\ (q == acc + sum_amounts (numbers vs))%Q.
Proof.
  induction 1 as [| v vs Hv _ IH]; intros acc; simpl.
  - exists acc. split; [reflexivity | ring].
  - destruct v as [| x | s]; try discriminate. simpl.
    destruct (IH (acc + x)%Q) as [q [Hq Heq]].
    exists q. split; [exact Hq |].
    rewrite Heq. ring.
Qed.

Lemma py_sum_from_not_number (vs : list pyval) :
  Exists (fun v => is_numeric v = false) vs ->
  forall acc, py_sum_from acc vs = Raise (Exception "TypeError").
Proof.
  induction 1 as [v vs Hv | v vs _ IH]; intros acc; simpl.
  - destruct v; try discriminate; reflexivity.
  - destruct v; simpl; auto.
Qed.

Lemma numeric_amounts_dec (invoice : Raw.InvoiceRecord) :
  {numeric_amounts invoice}
  + {Exists (fun v => is_numeric v = false)
            (map Raw.amount (Raw.properties invoice))}.
Proof.
  unfold numeric_amounts.
  destruct (Forall_Exists_dec (fun v => is_numeric v = true)
              (fun v => bool_dec (is_numeric v) true)
              (map Raw.amount (Raw.properties invoice))) as [H | H].
  - left. exact H.
  - right. eapply Exists_impl; [| exact H].
    intros v Hv. apply not_true_is_false. exact Hv.
Qed.

Lemma invoice_entry_numeric (invoice : Raw.InvoiceRecord) :
  numeric_amounts invoice ->
  exists e, invoice_entry invoice = Ok e /\ entry_of invoice e.
Proof.
  intros Hn. unfold invoice_entry, py_sum.
  destruct (py_sum_from_numbers _ Hn 0%Q) as [q [Hq Heq]].
  rewrite Hq. simpl. eexists. split; [reflexivity |].
  unfold entry_of, amounts. simpl. repeat split; try reflexivity.
  rewrite Heq. ring.
Qed.

Lemma invoice_entry_not_numeric (invoice : Raw.InvoiceRecord) :
  ~ numeric_amounts invoice ->
  invoice_entry invoice = Raise (Exception "TypeError").
Proof.
  intros Hn. unfold invoice_entry, py_sum.
  destruct (numeric_amounts_dec invoice) as [H | H]; [contradiction |].
  rewrite (py_sum_from_not_number _ H). reflexivity.
Qed.

Lemma append_invoices_numeric (data : list Raw.InvoiceRecord) :
  Forall numeric_amounts data ->
  forall invoices, exists es,
    append_invoices data invoices = Ok (invoices ++ es)
    /\ Forall2 entry_of data es.
Proof.
  induction 1 as [| invoice rest Hi _ IH]; intros invoices; simpl.
  - exists []. rewrite app_nil_r. split; [reflexivity | constructor].
  - destruct (invoice_entry_numeric invoice Hi) as [e [He Hm]].
    rewrite He. simpl.
    destruct (IH (invoices ++ [e])) as [es [Hes HF]].
    exists (e :: es). rewrite Hes, <- app_assoc. simpl.
    split; [reflexivity | constructor; assumption].
Qed.

Lemma append_invoices_not_numeric (data : list Raw.InvoiceRecord) :
  Exists (fun invoice => ~ numeric_amounts invoice) data ->
  forall invoices,
    append_invoices data invoices = Raise (Exception "TypeError").
Proof.
  induction 1 as [invoice rest Hi | invoice rest _ IH]; intros invoices; simpl.
  - rewrite (invoice_entry_not_numeric invoice Hi). reflexivity.
  - destruct (numeric_amounts_dec invoice) as [Hn | Hn].
    + destruct (invoice_entry_numeric invoice Hn) as [e [He _]].
      rewrite He. simpl. apply IH.
    + unfold invoice_entry, py_sum.
      rewrite (py_sum_from_not_number _ Hn). reflexivity.
Qed.

Section Parsing.
Variable to_datetime : string -> option Timestamp.

Lemma to_datetime_column_dates (col : list string) :
  Forall (fun s => to_datetime s <> None) col ->
  exists dates,
    to_datetime_column to_datetime col = Ok dates
    /\ Forall2 (fun s t => to_datetime s = Some t) col dates.
Proof.
  induction 1 as [| s rest Hs _ [dates [Hd HF]]]; simpl.
  - exists []. split; [reflexivity | constructor].
  - destruct (to_datetime s) as [t |] eqn:E; [| contradiction].
    rewrite Hd. simpl. exists (t :: dates).
    split; [reflexivity | constructor; assumption].
Qed.

Lemma with_dates_normalized (data : list Raw.InvoiceRecord) (es : list Entry.t) :
  Forall2 entry_of data es ->
  forall dates,
    Forall2 (fun s t => to_datetime s = Some t) (map Entry.invoiceDate es) dates ->
    Forall2 (normalized to_datetime) data
            (map (fun p => with_dates (fst p) (snd p)) (combine es dates)).
Proof.
  induction 1 as [| invoice e data es He _ IH]; intros dates Hd; simpl.
  - constructor.
  - inversion Hd as [| s t ss ts Hst Hrest]; subst. simpl.
    constructor; [| apply IH; assumption].
    destruct He as (H1 & H2 & H3 & H4 & H5 & H6 & H7 & H8 & H9).
    unfold normalized. simpl. rewrite <- H4.
    repeat split; assumption.
Qed.

(** Every well-formed input with at least one record is normalized, row
    for record. *)
Lemma process_invoices_rows (data : list Raw.InvoiceRecord) :
  data <> [] ->
  Forall numeric_amounts data ->
  Forall (fun invoice => to_datetime (Raw.invoiceDate invoice) <> None) data ->
  exists rows,
    process_invoices to_datetime data = Ok rows
    /\ Forall2 (normalized to_datetime) data rows.
Proof.
  intros Hne Hnum Hdates. unfold process_invoices.
  destruct (append_invoices_numeric data Hnum []) as [es [Hes HF]].
  rewrite Hes. simpl.
  destruct es as [| e es'].
  { inversion HF; subst. contradiction. }
  assert (Hcol : Forall (fun s => to_datetime s <> None)
                        (map Entry.invoiceDate (e :: es'))).
  { clear Hes Hne Hnum. revert Hdates.
    induction HF as [| invoice e0 data0 es0 He _ IH]; intros Hdates.
    - constructor.
    - inversion Hdates; subst. simpl. constructor; [| apply IH; assumption].
      destruct He as (_ & _ & _ & H4 & _). rewrite H4. assumption. }
  destruct (to_datetime_column_dates _ Hcol) as [dates [Hd HD]].
  rewrite Hd. cbv beta iota delta [bind]. eexists. split; [reflexivity |].
  apply with_dates_normalized; assumption.
Qed.

End Parsing.

(** C2 (the code departs from it on the empty input): normalisation of an
    empty sequence of records should give the empty sequence of rows, but
    [process_invoices] raises [KeyError] there, because a DataFrame built
    from no record has no ["invoiceDate"] column.  (On an input with at
    least one record the rows correspond to the records one to one, see
    [process_invoices_rows].) *)
Theorem process_invoices_empty_input (to_datetime : string -> option Timestamp) :
  process_invoices to_datetime [] = Raise (Exception "KeyError")
  /\ ~ (exists rows, process_invoices to_datetime [] = Ok rows
                     /\ Forall2 (normalized to_datetime) [] rows).
Proof.
  split; [reflexivity |].
  intros [rows [H _]]. discriminate H.
Qed.




(** ** Sorting *)

Lemma StronglySorted_app {A} (R : A -> A -> Prop) (l1 l2 : list A) :
  StronglySorted R l1 -> StronglySorted R l2 ->
  (forall a b, In a l1 -> In b l2 -> R a b) ->
  StronglySorted R (l1 ++ l2).
Proof.
  induction 1 as [| x t Hs IH Hx]; intros H2 Hc; simpl; [exact H2 |].
  constructor.
  - apply IH; [exact H2 |]. intros a b Ha Hb. apply Hc; simpl; auto.
  - apply Forall_app. split; [exact Hx |].
    apply Forall_forall. intros b Hb. apply Hc; simpl; auto.
Qed.

Lemma StronglySorted_app_inv {A} (R : A -> A -> Prop) (l1 l2 : list A) :
  StronglySorted R (l1 ++ l2) ->
  forall a b, In a l1 -> In b l2 -> R a b.
Proof.
  induction l1 as [| x t IH]; simpl; intros Hs a b Ha Hb; [contradiction |].
  inversion Hs as [| ? ? Hs' Hx]; subst.
  destruct Ha as [-> | Ha].
  - rewrite Forall_forall in Hx. apply Hx. apply in_or_app. auto.
  - eapply IH; eassumption.
Qed.

Lemma StronglySorted_rev {A} (R : A -> A -> Prop) (l : list A) :
  StronglySorted R l -> StronglySorted (fun a b => R b a) (rev l).
Proof.
  induction 1 as [| x t Hs IH Hx]; simpl; [constructor |].
  apply StronglySorted_app; [exact IH | repeat constructor |].
  intros a b Ha Hb. destruct Hb as [<- | []].
  rewrite Forall_forall in Hx. apply Hx. apply in_rev. exact Ha.
Qed.

Section SortValues.
Variable kind : SortKind.
Context {A : Type} (leb : A -> A -> bool).

Lemma sort_values_perm (ascending : bool) (l : list A) :
  Permutation l (sort_values kind leb ascending l).
Proof.
  unfold sort_values. destruct ascending.
  - apply np_sort_perm.
  - rewrite <- Permutation_rev, <- np_sort_perm. apply Permutation_rev.
Qed.

Lemma sort_values_ascending (l : list A) :
  total_order leb ->
  StronglySorted (fun a b => leb a b = true) (sort_values kind leb true l).
Proof. intros H. apply np_sort_sorted. exact H. Qed.

Lemma sort_values_descending (l : list A) :
  total_order leb ->
  StronglySorted (fun a b => leb b a = true) (sort_values kind leb false l).
Proof.
  intros H. unfold sort_values.
  apply (StronglySorted_rev (fun a b => leb a b = true)).
  apply np_sort_sorted. exact H.
Qed.

End SortValues.

Lemma by_invoiceDate_order : total_order by_invoiceDate.
Proof.
  unfold by_invoiceDate. split.
  - intros a b. rewrite !Z.leb_le. lia.
  - intros a b c. rewrite !Z.leb_le. lia.
Qed.

Lemma by_month_order : total_order by_month.
Proof.
  unfold by_month. split.
  - intros a b. rewrite !Z.leb_le. lia.
  - intros a b c. rewrite !Z.leb_le. lia.
Qed.

Lemma by_total_order {K} : total_order (@by_total K).
Proof.
  unfold by_total. split.
  - intros a b. rewrite !Qle_bool_iff.
    destruct (Qlt_le_dec (snd b) (snd a)) as [H | H]; [right | left]; auto.
    apply Qlt_le_weak. exact H.
  - intros a b c. rewrite !Qle_bool_iff. apply Qle_trans.
Qed.

(** ** The display table *)

(** C7 (as the code has it): the display table holds the filtered rows,
    each once, ordered by invoiceDate from the most recent to the oldest,
    with the date shown as year-month-day.  The order among rows of equal
    invoiceDate is left to the sorting algorithm. *)
Theorem display_table_descending (kind : SortKind) (df_filtered : list Row) :
  Permutation df_filtered (display_sorted kind df_filtered)
  /\ StronglySorted (fun a b => invoiceDate b <= invoiceDate a)
                    (display_sorted kind df_filtered)
  /\ display_df kind df_filtered
     = map display_row (display_sorted kind df_filtered)
  /\ map Date (display_df kind df_filtered)
     = map (fun r => strftime_Ymd (invoiceDate r))
           (display_sorted kind df_filtered).
Proof.
  split; [| split; [| split]].
  - apply sort_values_perm.
  - pose proof (sort_values_descending kind by_invoiceDate df_filtered
                                       by_invoiceDate_order) as H.
    eapply StronglySorted_ind with (P := StronglySorted _); [constructor | | exact H].
    intros a l _ IH Ha. constructor; [exact IH |].
    eapply Forall_impl; [| exact Ha].
    intros b Hb. unfold by_invoiceDate in Hb. apply Z.leb_le. exact Hb.
  - reflexivity.
  - unfold display_df. rewrite map_map. reflexivity.
Qed.

(** C7, as stated, fails: eighteen invoices of the same day, sorted by
    numpy's quicksort as [sort_values] does by default, are not displayed
    in their insertion order.  All keys being equal, the one partition of
    the 18 positions swaps the positions 1..7 with the positions 15..9. *)
Lemma display_ties_counterexample :
  let t := 1704844800000000000 in
  filter (dated t) (display_sorted quicksort_kind Sample.eighteen_same_day)
  <> filter (dated t) Sample.eighteen_same_day
  /\ display_sorted quicksort_kind Sample.eighteen_same_day
     = rev (take (rev Sample.eighteen_same_day)
                 (Numpy.argsort by_invoiceDate (rev Sample.eighteen_same_day)))
  /\ Numpy.argsort by_invoiceDate (rev Sample.eighteen_same_day)
     = [0; 15; 14; 13; 12; 11; 10; 9; 8; 7; 6; 5; 4; 3; 2; 1; 16; 17]%nat
  /\ map internalReference Sample.eighteen_same_day
     = ["R01"; "R02"; "R03"; "R04"; "R05"; "R06"; "R07"; "R08"; "R09";
        "R10"; "R11"; "R12"; "R13"; "R14"; "R15"; "R16"; "R17"; "R18"]%string
  /\ map internalReference
         (display_sorted quicksort_kind Sample.eighteen_same_day)
     = ["R01"; "R02"; "R17"; "R16"; "R15"; "R14"; "R13"; "R12"; "R11";
        "R10"; "R09"; "R08"; "R07"; "R06"; "R05"; "R04"; "R03"; "R18"]%string.
Proof.
  cbv zeta. split; [| repeat split; vm_compute; reflexivity].
  intros H. apply (f_equal (map internalReference)) in H.
  vm_compute in H. discriminate.
Qed.

(** ** Sums and grouped totals *)

Lemma fold_left_Qplus (l : list Q) (a : Q) :
  (fold_left Qplus l a == a + sum_amounts l)%Q.
Proof.
  revert a. induction l as [| x t IH]; intros a; simpl.
  - ring.
  - rewrite IH. ring.
Qed.

Lemma series_sum_amounts (l : list Q) : (series_sum l == sum_amounts l)%Q.
Proof. unfold series_sum. rewrite fold_left_Qplus. ring. Qed.

Lemma sum_amounts_app (l1 l2 : list Q) :
  (sum_amounts (l1 ++ l2) == sum_amounts l1 + sum_amounts l2)%Q.
Proof.
  induction l1 as [| x t IH]; simpl; [ring |].
  rewrite IH. ring.
Qed.

Lemma sum_amounts_perm (l1 l2 : list Q) :
  Permutation l1 l2 -> (sum_amounts l1 == sum_amounts l2)%Q.
Proof.
  induction 1 as [| x l l' _ IH | x y l | l l' l'' _ IH1 _ IH2]; simpl.
  - reflexivity.
  - rewrite IH. reflexivity.
  - ring.
  - rewrite IH1. exact IH2.
Qed.

Section GroupBy.
Context {R K : Type} `{OK : Ord K} (key : R -> K) (val : R -> Q).

Lemma eqb_key_eq (a b : K) : eqb_key a b = true <-> a = b.
Proof.
  unfold eqb_key. rewrite <- compare_eq.
  destruct (compare a b); split; congruence.
Qed.

Lemma compare_Lt_neq (a b : K) : compare a b = Lt -> a <> b.
Proof.
  intros H ->. rewrite (proj2 (compare_eq b b) eq_refl) in H. discriminate.
Qed.

Lemma compare_Gt_neq (a b : K) : compare a b = Gt -> a <> b.
Proof.
  intros H ->. rewrite (proj2 (compare_eq b b) eq_refl) in H. discriminate.
Qed.

Lemma group_add_keys (k : K) (v : Q) (acc : list (K * Q)) (k' : K) :
  In k' (map fst (group_add k v acc)) <-> k' = k \/ In k' (map fst acc).
Proof.
  induction acc as [| [k1 s1] rest IH]; simpl.
  - intuition.
  - destruct (compare k k1) eqn:E; simpl.
    + apply compare_eq in E. subst k1. intuition.
    + intuition.
    + rewrite IH. intuition.
Qed.

Lemma group_add_sorted (k : K) (v : Q) (acc : list (K * Q)) :
  StronglySorted keys_lt acc -> StronglySorted keys_lt (group_add k v acc).
Proof.
  induction 1 as [| [k1 s1] rest Hs IH Hk]; simpl.
  - repeat constructor.
  - destruct (compare k k1) eqn:E.
    + constructor; [exact Hs |].
      eapply Forall_impl; [| exact Hk]. intros p Hp. exact Hp.
    + constructor; [constructor; assumption |].
      constructor; [exact E |].
      eapply Forall_impl; [| exact Hk].
      intros p Hp. unfold keys_lt in *. simpl in *.
      eapply compare_trans; eassumption.
    + constructor; [exact IH |].
      apply Forall_forall. intros [k2 s2] Hin.
      assert (Hk2 : In k2 (map fst (group_add k v rest))).
      { apply in_map_iff. exists (k2, s2). auto. }
      apply group_add_keys in Hk2. unfold keys_lt. simpl.
      destruct Hk2 as [-> | Hk2].
      * rewrite compare_antisym, E. reflexivity.
      * apply in_map_iff in Hk2. destruct Hk2 as [[k3 s3] [Hf Hin3]].
        simpl in Hf. subst k3.
        rewrite Forall_forall in Hk. exact (Hk _ Hin3).
Qed.

Lemma group_add_sum (k : K) (v : Q) (acc : list (K * Q)) :
  (sum_amounts (map snd (group_add k v acc))
   == sum_amounts (map snd acc) + v)%Q.
Proof.
  induction acc as [| [k1 s1] rest IH]; simpl; [ring |].
  destruct (compare k k1); simpl; [ring | ring |].
  rewrite IH. ring.
Qed.

Lemma sorted_head_not_in (k1 : K) (s1 : Q) (rest : list (K * Q)) :
  StronglySorted keys_lt ((k1, s1) :: rest) -> ~ In k1 (map fst rest).
Proof.
  intros Hs Hin. inversion Hs as [| ? ? _ Hk]; subst.
  apply in_map_iff in Hin. destruct Hin as [[k2 s2] [Hf Hin]].
  simpl in Hf. subst k2. rewrite Forall_forall in Hk.
  exact (compare_Lt_neq _ _ (Hk _ Hin) eq_refl).
Qed.

Lemma sorted_keys_NoDup (acc : list (K * Q)) :
  StronglySorted keys_lt acc -> NoDup (map fst acc).
Proof.
  induction 1 as [| [k1 s1] rest Hs IH Hk]; simpl; constructor.
  - apply (sorted_head_not_in k1 s1). constructor; assumption.
  - exact IH.
Qed.

(** What an entry of the groups is after a row has been added. *)
Lemma group_add_entry (k : K) (v : Q) (acc : list (K * Q)) (k' : K) (s' : Q) :
  StronglySorted keys_lt acc ->
  In (k', s') (group_add k v acc) ->
  (k' <> k /\ In (k', s') acc)
  \/ (k' = k /\ ((~ In k (map fst acc) /\ s' = v)
                 \/ exists s, In (k, s) acc /\ s' = (s + v)%Q)).
Proof.
  induction 1 as [| [k1 s1] rest Hs IH Hk]; simpl; intros Hin.
  - destruct Hin as [Heq | []]. inversion Heq; subst.
    right. split; [reflexivity |].
    left. split; [tauto | reflexivity].
  - assert (Hnot : ~ In k1 (map fst rest)).
    { apply (sorted_head_not_in k1 s1). constructor; assumption. }
    destruct (compare k k1) eqn:E.
    + apply compare_eq in E. subst k1.
      destruct Hin as [Heq | Hin].
      * inversion Heq; subst.
        right. split; [reflexivity |]. right. exists s1. auto.
      * left. split; [| right; exact Hin].
        intros ->. apply Hnot. apply in_map_iff. exists (k, s'). auto.
    + assert (Hfresh : ~ (k1 = k \/ In k (map fst rest))).
      { intros [-> | Hin'].
        - exact (compare_Lt_neq _ _ E eq_refl).
        - apply in_map_iff in Hin'. destruct Hin' as [[k2 s2] [Hf Hin2]].
          simpl in Hf. subst k2. rewrite Forall_forall in Hk.
          pose proof (Hk _ Hin2) as H12. unfold keys_lt in H12. simpl in H12.
          exact (compare_Lt_neq _ _ (compare_trans _ _ _ E H12) eq_refl). }
      destruct Hin as [Heq | Hin].
      * inversion Heq; subst.
        right. split; [reflexivity |]. left. split; [exact Hfresh | reflexivity].
      * left. split; [| exact Hin].
        intros ->. apply Hfresh.
        destruct Hin as [Heq | Hin]; [inversion Heq; left; reflexivity |].
        right. apply in_map_iff. exists (k, s'). auto.
    + destruct Hin as [Heq | Hin].
      * inversion Heq; subst.
        left. split; [| left; reflexivity].
        intros ->. exact (compare_Gt_neq _ _ E eq_refl).
      * destruct (IH Hin) as [[Hne Hin'] | [-> [[Hfresh ->] | [s [Hs' ->]]]]].
        -- left. auto.
        -- right. split; [reflexivity |]. left. split; [| reflexivity].
           intros [-> | Hin']; [| exact (Hfresh Hin')].
           exact (compare_Gt_neq _ _ E eq_refl).
        -- right. split; [reflexivity |]. right. exists s. auto.
Qed.

Lemma groupby_sum_snoc (df : list R) (r : R) :
  groupby_sum key val (df ++ [r])
  = group_add (key r) (val r) (groupby_sum key val df).
Proof. unfold groupby_sum. rewrite fold_left_app. reflexivity. Qed.

Lemma groupby_sum_sorted (df : list R) :
  StronglySorted keys_lt (groupby_sum key val df).
Proof.
  induction df as [| r df IH] using rev_ind.
  - constructor.
  - rewrite groupby_sum_snoc. apply group_add_sorted. exact IH.
Qed.

Lemma groupby_sum_keys (df : list R) (k : K) :
  In k (map fst (groupby_sum key val df)) <-> In k (map key df).
Proof.
  induction df as [| r df IH] using rev_ind.
  - simpl. tauto.
  - rewrite groupby_sum_snoc, group_add_keys, IH, map_app, in_app_iff.
    simpl. intuition.
Qed.

(** The totals of the groups add up to the total of the column. *)
Lemma groupby_sum_total (df : list R) :
  (sum_amounts (map snd (groupby_sum key val df))
   == sum_amounts (map val df))%Q.
Proof.
  induction df as [| r df IH] using rev_ind.
  - reflexivity.
  - rewrite groupby_sum_snoc, group_add_sum, IH, map_app, sum_amounts_app.
    simpl. ring.
Qed.

Lemma group_total_snoc (k : K) (df : list R) (r : R) :
  (group_total key val k (df ++ [r])
   == group_total key val k df
      + (if eqb_key (key r) k then val r else 0))%Q.
Proof.
  unfold group_total. rewrite filter_app, map_app, sum_amounts_app. simpl.
  destruct (eqb_key (key r) k); simpl; ring.
Qed.

Lemma group_total_absent (k : K) (df : list R) :
  ~ In k (map key df) -> (group_total key val k df == 0)%Q.
Proof.
  intros Hnot. unfold group_total.
  assert (Hnil : filter (fun r => eqb_key (key r) k) df = []).
  { induction df as [| r df IH]; simpl; [reflexivity |].
    destruct (eqb_key (key r) k) eqn:E.
    - apply eqb_key_eq in E. exfalso. apply Hnot. simpl. auto.
    - apply IH. intros H. apply Hnot. simpl. auto. }
  rewrite Hnil. reflexivity.
Qed.

(** Each group carries the total of the rows that have its key. *)
Lemma groupby_sum_entry (df : list R) (k : K) (s : Q) :
  In (k, s) (groupby_sum key val df) ->
  (s == group_total key val k df)%Q.
Proof.
  revert k s. induction df as [| r df IH] using rev_ind; intros k s Hin.
  - contradiction.
  - rewrite groupby_sum_snoc in Hin. rewrite group_total_snoc.
    apply group_add_entry in Hin; [| apply groupby_sum_sorted].
    destruct Hin as [[Hne Hin] | [-> [[Hfresh ->] | [s0 [Hin ->]]]]].
    + destruct (eqb_key (key r) k) eqn:E.
      * apply eqb_key_eq in E. congruence.
      * rewrite (IH _ _ Hin). ring.
    + rewrite (proj2 (eqb_key_eq _ _) eq_refl).
      rewrite group_total_absent; [ring |].
      rewrite <- groupby_sum_keys. exact Hfresh.
    + rewrite (proj2 (eqb_key_eq _ _) eq_refl).
      rewrite (IH _ _ Hin). reflexivity.
Qed.

Lemma groupby_sum_group (df : list R) (r : R) :
  In r df -> exists s, In (key r, s) (groupby_sum key val df).
Proof.
  intros Hin.
  assert (Hk : In (key r) (map fst (groupby_sum key val df))).
  { apply groupby_sum_keys. apply in_map. exact Hin. }
  apply in_map_iff in Hk. destruct Hk as [[k s] [Hf Hin']].
  simpl in Hf. subst k. exists s. exact Hin'.
Qed.

End GroupBy.

(** C5: the per-category totals add up to the total invoiceGross of the
    filtered set (in exact arithmetic). *)
Theorem category_totals_add_up (kind : SortKind) (df_filtered : list Row) :
  (series_sum (map snd (category_totals kind df_filtered))
   == total_amount (key_metrics df_filtered))%Q.
Proof.
  unfold category_totals.
  change (total_amount (key_metrics df_filtered))
    with (series_sum (map invoiceGross df_filtered)).
  rewrite !series_sum_amounts.
  transitivity
    (sum_amounts (map snd (groupby_sum category invoiceGross df_filtered))).
  - apply sum_amounts_perm. apply Permutation_map. apply Permutation_sym.
    apply sort_values_perm.
  - apply groupby_sum_total.
Qed.

(** ** The top-5 monthly breakdown *)

Lemma isin_In (x : string) (values : list string) :
  isin x values = true <-> In x values.
Proof.
  unfold isin. rewrite existsb_exists. split.
  - intros [y [Hy E]]. apply String.eqb_eq in E. subst y. exact Hy.
  - intros H. exists x. split; [exact H | apply String.eqb_refl].
Qed.

Lemma unique_In (l : list string) (x : string) : In x (unique l) <-> In x l.
Proof.
  induction l as [| y t IH]; simpl; [tauto |].
  rewrite filter_In, IH, negb_true_iff, String.eqb_neq.
  destruct (string_dec y x) as [-> | Hne]; [tauto |].
  intuition congruence.
Qed.

Lemma unique_NoDup (l : list string) : NoDup (unique l).
Proof.
  induction l as [| y t IH]; simpl; constructor.
  - rewrite filter_In, negb_true_iff, String.eqb_neq. tauto.
  - apply NoDup_filter. exact IH.
Qed.

Lemma Forall2_In_l {A B} (R : A -> B -> Prop) (l : list A) (l' : list B) :
  Forall2 R l l' -> forall a, In a l -> exists b, In b l' /\ R a b.
Proof.
  induction 1 as [| x y l l' Hxy _ IH]; intros a Ha; simpl in *; [contradiction |].
  destruct Ha as [<- | Ha].
  - exists y. auto.
  - destruct (IH a Ha) as [b [Hb Hab]]. exists b. auto.
Qed.

Lemma Forall2_In_r {A B} (R : A -> B -> Prop) (l : list A) (l' : list B) :
  Forall2 R l l' -> forall b, In b l' -> exists a, In a l /\ R a b.
Proof.
  induction 1 as [| x y l l' Hxy _ IH]; intros b Hb; simpl in *; [contradiction |].
  destruct Hb as [<- | Hb].
  - exists x. auto.
  - destruct (IH b Hb) as [a [Ha Hab]]. exists a. auto.
Qed.

Lemma Forall2_filter_length {A B} (R : A -> B -> Prop)
      (p : A -> bool) (q : B -> bool) (l : list A) (l' : list B) :
  Forall2 R l l' -> (forall a b, R a b -> p a = q b) ->
  List.length (filter p l) = List.length (filter q l').
Proof.
  intros HF Hpq. induction HF as [| x y l l' Hxy _ IH]; simpl; [reflexivity |].
  rewrite (Hpq x y Hxy). destruct (q y); simpl; rewrite IH; reflexivity.
Qed.

Lemma filter_perm_length {A} (p : A -> bool) (l l' : list A) :
  Permutation l l' -> List.length (filter p l) = List.length (filter p l').
Proof.
  induction 1 as [| x l l' _ IH | x y l | l l' l'' _ IH1 _ IH2]; simpl.
  - reflexivity.
  - destruct (p x); simpl; rewrite IH; reflexivity.
  - destruct (p x), (p y); reflexivity.
  - rewrite IH1. exact IH2.
Qed.

Section Breakdown.
Variable kind : SortKind.
Variable to_datetime : string -> option Timestamp.
Variable df : list Row.

Lemma category_totals_perm :
  Permutation (groupby_sum category invoiceGross df) (category_totals kind df).
Proof. apply sort_values_perm. Qed.

Lemma category_totals_sorted :
  StronglySorted (fun a b => (snd b <= snd a)%Q) (category_totals kind df).
Proof.
  pose proof (sort_values_descending kind by_total
                (groupby_sum category invoiceGross df) by_total_order) as H.
  fold (category_totals kind df) in H.
  induction H as [| a l _ IH Ha]; constructor; [exact IH |].
  eapply Forall_impl; [| exact Ha].
  intros b Hb. apply Qle_bool_iff. exact Hb.
Qed.

Lemma category_totals_NoDup : NoDup (map fst (category_totals kind df)).
Proof.
  eapply Permutation_NoDup.
  - apply Permutation_map. apply category_totals_perm.
  - apply sorted_keys_NoDup. apply groupby_sum_sorted.
Qed.

Lemma category_totals_entry (c : string) (s : Q) :
  In (c, s) (category_totals kind df) ->
  (s == group_total category invoiceGross c df)%Q.
Proof.
  intros H. apply groupby_sum_entry.
  eapply Permutation_in; [apply Permutation_sym, category_totals_perm | exact H].
Qed.

Lemma category_totals_keys (c : string) :
  In c (map fst (category_totals kind df)) <-> In c (map category df).
Proof.
  rewrite <- (groupby_sum_keys category invoiceGross). split; intros H.
  - eapply Permutation_in; [| exact H].
    apply Permutation_map, Permutation_sym, category_totals_perm.
  - eapply Permutation_in; [| exact H].
    apply Permutation_map, category_totals_perm.
Qed.

Lemma category_totals_length :
  List.length (category_totals kind df) = nunique (map category df).
Proof.
  unfold nunique. rewrite <- (length_map fst).
  apply Permutation_length. apply NoDup_Permutation.
  - apply category_totals_NoDup.
  - apply unique_NoDup.
  - intros c. rewrite category_totals_keys, unique_In. reflexivity.
Qed.

Lemma top_categories_length :
  List.length (top_categories kind df)
  = Nat.min 5 (nunique (map category df)).
Proof.
  unfold top_categories.
  rewrite length_map, length_firstn, category_totals_length. reflexivity.
Qed.

Lemma top_categories_NoDup : NoDup (top_categories kind df).
Proof.
  unfold top_categories. rewrite <- firstn_map.
  pose proof category_totals_NoDup as H.
  rewrite <- (firstn_skipn 5 (map fst (category_totals kind df))) in H.
  eapply NoDup_app_remove_r. exact H.
Qed.

Lemma top_categories_present (c : string) :
  In c (top_categories kind df) -> In c (map category df).
Proof.
  intros H. apply category_totals_keys.
  unfold top_categories in H. rewrite <- firstn_map in H.
  rewrite <- (firstn_skipn 5 (map fst (category_totals kind df))).
  apply in_or_app. left. exact H.
Qed.

Lemma top_categories_best (c c' : string) :
  In c (top_categories kind df) ->
  In c' (map category df) ->
  ~ In c' (top_categories kind df) ->
  (group_total category invoiceGross c' df
   <= group_total category invoiceGross c df)%Q.
Proof.
  intros Hc Hc' Hnot.
  assert (Hs : StronglySorted (fun a b => (snd b <= snd a)%Q)
                 (firstn 5 (category_totals kind df)
                  ++ skipn 5 (category_totals kind df))).
  { rewrite firstn_skipn. apply category_totals_sorted. }
  unfold top_categories in Hc. apply in_map_iff in Hc.
  destruct Hc as [[c0 s] [Hf Hin]]. simpl in Hf. subst c0.
  apply category_totals_keys in Hc'. apply in_map_iff in Hc'.
  destruct Hc' as [[c0 s'] [Hf Hin']]. simpl in Hf. subst c0.
  assert (Hskip : In (c', s') (skipn 5 (category_totals kind df))).
  { rewrite <- (firstn_skipn 5 (category_totals kind df)) in Hin'.
    apply in_app_or in Hin'. destruct Hin' as [H | H]; [| exact H].
    exfalso. apply Hnot. unfold top_categories.
    apply in_map_iff. exists (c', s'). auto. }
  pose proof (StronglySorted_app_inv _ _ _ Hs _ _ Hin Hskip) as Hle.
  simpl in Hle.
  rewrite <- (category_totals_entry c s).
  - rewrite <- (category_totals_entry c' s'); [exact Hle | exact Hin'].
  - rewrite <- (firstn_skipn 5 (category_totals kind df)).
    apply in_or_app. left. exact Hin.
Qed.

Lemma month_column_entries (l : list (string * string * Q)) :
  Forall (fun g => to_datetime (fst (fst g)) <> None) l ->
  exists cms,
    month_column to_datetime l = Ok cms
    /\ Forall2 (month_entry to_datetime) l cms.
Proof.
  induction 1 as [| [[ym c] s] rest Hg _ [cms [Hc HF]]]; simpl.
  - exists []. split; [reflexivity | constructor].
  - simpl in Hg. destruct (to_datetime ym) as [t |] eqn:E; [| contradiction].
    rewrite Hc. simpl. eexists. split; [reflexivity |].
    constructor; [| exact HF].
    unfold month_entry. simpl. auto.
Qed.

Hypothesis months_are_dates :
  forall r, In r df -> to_datetime (yearMonth r) <> None.

Lemma category_monthly_rows :
  exists cms rows,
    month_column to_datetime (groupby_sum yearMonth_category invoiceGross df)
    = Ok cms
    /\ Forall2 (month_entry to_datetime)
               (groupby_sum yearMonth_category invoiceGross df) cms
    /\ category_monthly kind to_datetime df = Ok rows
    /\ Permutation cms rows.
Proof.
  destruct (month_column_entries
              (groupby_sum yearMonth_category invoiceGross df))
    as [cms [Hc HF]].
  - apply Forall_forall. intros [[ym c] s] Hin. simpl.
    assert (Hk : In (ym, c) (map yearMonth_category df)).
    { apply (groupby_sum_keys yearMonth_category invoiceGross).
      apply in_map_iff. exists (ym, c, s). auto. }
    apply in_map_iff in Hk. destruct Hk as [r [Hr Hin']].
    injection Hr as <- _. apply months_are_dates. exact Hin'.
  - exists cms, (sort_values kind by_month true cms).
    repeat split; try assumption.
    + unfold category_monthly. rewrite Hc. reflexivity.
    + apply sort_values_perm.
Qed.

End Breakdown.

(** C8: the top-5 monthly breakdown is produced whenever the yearMonth
    keys read back as dates.  Its categories are 5 of the categories of the
    filtered set (all of them when there are fewer), with totals over the
    whole filtered set at least as high as that of any category left out;
    the view holds one row per (yearMonth, category) group of those
    categories, carrying the invoiceGross sum of the group, and nothing
    else; a category left out has no row in the view and keeps its row in
    the category totals. *)
Theorem top_five_monthly_breakdown (kind : SortKind)
        (to_datetime : string -> option Timestamp) (df : list Row) :
  (forall r, In r df -> to_datetime (yearMonth r) <> None) ->
  exists view,
    category_monthly_filtered kind to_datetime df = Ok view
    /\ List.length (top_categories kind df)
       = Nat.min 5 (nunique (map category df))
    /\ NoDup (top_categories kind df)
    /\ (forall c, In c (top_categories kind df) -> In c (map category df))
    /\ (forall c c',
          In c (top_categories kind df) ->
          In c' (map category df) ->
          ~ In c' (top_categories kind df) ->
          (group_total category invoiceGross c' df
           <= group_total category invoiceGross c df)%Q)
    /\ (forall e, In e view ->
          In (cm_category e) (top_categories kind df)
          /\ exists r,
               In r df
               /\ category r = cm_category e
               /\ to_datetime (yearMonth r) = Some (cm_yearMonth e)
               /\ (cm_invoiceGross e
                   == group_total yearMonth_category invoiceGross
                                  (yearMonth_category r) df)%Q)
    /\ (forall r, In r df -> In (category r) (top_categories kind df) ->
          exists e,
            In e view
            /\ cm_category e = category r
            /\ to_datetime (yearMonth r) = Some (cm_yearMonth e)
            /\ (cm_invoiceGross e
                == group_total yearMonth_category invoiceGross
                               (yearMonth_category r) df)%Q)
    /\ List.length view
       = List.length
           (filter (fun g => isin (snd (fst g)) (top_categories kind df))
                   (groupby_sum yearMonth_category invoiceGross df))
    /\ (forall c', In c' (map category df) ->
                   ~ In c' (top_categories kind df) ->
                   (forall e, In e view -> cm_category e <> c')
                   /\ In c' (map fst (category_totals kind df))).
Proof.
  intros Hdates.
  destruct (category_monthly_rows kind to_datetime df Hdates)
    as [cms [rows [Hcol [HF [Hrows Hperm]]]]].
  exists (filter (fun e => isin (cm_category e) (top_categories kind df)) rows).
  split; [unfold category_monthly_filtered; rewrite Hrows; reflexivity |].
  split; [apply top_categories_length |].
  split; [apply top_categories_NoDup |].
  split; [apply top_categories_present |].
  split; [apply top_categories_best |].
  split; [| split; [| split]].
  - intros e He. apply filter_In in He. destruct He as [He Htop].
    apply isin_In in Htop. split; [exact Htop |].
    apply (Permutation_in _ (Permutation_sym Hperm)) in He.
    destruct (Forall2_In_r _ _ _ HF e He) as [[[ym c] s] [Hg [Ht [Hc Hs]]]].
    simpl in Ht, Hc, Hs.
    assert (Hk : In (ym, c) (map yearMonth_category df)).
    { apply (groupby_sum_keys yearMonth_category invoiceGross).
      apply in_map_iff. exists (ym, c, s). auto. }
    apply in_map_iff in Hk. destruct Hk as [r [Hr Hin]].
    exists r. unfold yearMonth_category in Hr. injection Hr as Hym Hcat.
    repeat split.
    + exact Hin.
    + congruence.
    + rewrite Hym. exact Ht.
    + rewrite Hs. unfold yearMonth_category at 2. rewrite Hym, Hcat.
      apply groupby_sum_entry. exact Hg.
  - intros r Hin Htop.
    destruct (groupby_sum_group yearMonth_category invoiceGross df r Hin)
      as [s Hg].
    destruct (Forall2_In_l _ _ _ HF _ Hg) as [e [He [Ht [Hc Hs]]]].
    simpl in Ht, Hc, Hs.
    exists e. repeat split.
    + apply filter_In. split.
      * eapply Permutation_in; eassumption.
      * apply isin_In. rewrite Hc. exact Htop.
    + exact Hc.
    + exact Ht.
    + rewrite Hs. apply groupby_sum_entry. exact Hg.
  - rewrite <- (filter_perm_length _ _ _ Hperm). symmetry.
    apply (Forall2_filter_length (month_entry to_datetime)); [exact HF |].
    intros g e [_ [Hc _]]. rewrite Hc. reflexivity.
  - intros c' Hc' Hnot. split.
    + intros e He Heq. apply filter_In in He. destruct He as [_ Htop].
      apply isin_In in Htop. rewrite Heq in Htop. exact (Hnot Htop).
    + apply category_totals_keys. exact Hc'.
Qed.

Lemma top_five_monthly_breakdown_witness :
  (forall r, In r Sample.six_categories ->
             iso_to_datetime (yearMonth r) <> None)
  /\ exists view,
       category_monthly_filtered stable_kind iso_to_datetime Sample.six_categories
       = Ok view
       /\ List.length (top_categories stable_kind Sample.six_categories)
          = Nat.min 5 (nunique (map category Sample.six_categories))
       /\ forall e, In e view -> cm_category e <> "Gardening"%string.
Proof.
  assert (H : forall r, In r Sample.six_categories ->
                        iso_to_datetime (yearMonth r) <> None).
  { intros r Hr. simpl in Hr.
    repeat (destruct Hr as [<- | Hr]; [vm_compute; discriminate |]).
    contradiction. }
  split; [exact H |].
  destruct (top_five_monthly_breakdown stable_kind iso_to_datetime
              Sample.six_categories H)
    as [view [Hv [Hlen [_ [_ [_ [_ [_ [_ Hout]]]]]]]]].
  exists view. split; [exact Hv |]. split; [exact Hlen |].
  apply (Hout "Gardening"%string).
  - simpl. auto.
  - vm_compute. intuition discriminate.
Defined.

(** ** The scenario of the specification, run through the engine *)

Example scenario_category_totals :
  category_totals stable_kind Sample.scenario_rows
  = [("Repairs"%string, 300%Q); ("Cleaning"%string, 50%Q)].
Proof. vm_compute. reflexivity. Qed.

Example scenario_supplier_A :
  key_metrics (apply_filters Sample.criteria_A Sample.scenario_rows)
  = {| total_invoices := 2;
       total_amount := 150;
       avg_invoice := Some (150 # 2)%Q;
       unique_suppliers := 1 |}.
Proof. vm_compute. reflexivity. Qed.

Example scenario_first_page :
  map Date (display_df_page (display_df stable_kind Sample.scenario_rows) 10 1)
  = ["2024-02-20"; "2024-02-05"; "2024-01-10"]%string.
Proof. vm_compute. reflexivity. Qed.

Example six_categories_top :
  top_categories stable_kind Sample.six_categories
  = ["Repairs"; "Security"; "Insurance"; "Lifts"; "Cleaning"]%string.
Proof. vm_compute. reflexivity. Qed.

Example quicksort_small_frame :
  map internalReference (display_sorted quicksort_kind Sample.same_day)
  = ["R1"; "R2"]%string
  /\ display_sorted quicksort_kind Sample.scenario_rows
     = display_sorted stable_kind Sample.scenario_rows
  /\ category_totals quicksort_kind Sample.six_categories
     = category_totals stable_kind Sample.six_categories.
Proof. repeat split; vm_compute; reflexivity. Qed.

Example calendar_examples :
  civil_from_days 0 = (1970, 1, 1)
  /\ option_map strftime_Ymd (iso_to_datetime "2024-02-29") = Some "2024-02-29"%string
  /\ option_map period_M_str (iso_to_datetime "2024-02-29") = Some "2024-02"%string
  /\ iso_to_datetime "2024-02-30" = None
  /\ iso_to_datetime "next week" = None.
Proof. repeat split; vm_compute; reflexivity. Qed.

(** ** The filters, row by row *)

Lemma filter_category_In (sel : string) (df : list Row) (r : Row) :
  In r (filter_category sel df)
  <-> In r df /\ (sel <> "All"%string -> category r = sel).
Proof.
  unfold filter_category.
  destruct (String.eqb_spec sel "All") as [-> | Hne]; simpl.
  - tauto.
  - rewrite filter_In, String.eqb_eq. tauto.
Qed.

Lemma filter_supplier_In (sel : string) (df : list Row) (r : Row) :
  In r (filter_supplier sel df)
  <-> In r df /\ (sel <> "All"%string -> supplierName r = sel).
Proof.
  unfold filter_supplier.
  destruct (String.eqb_spec sel "All") as [-> | Hne]; simpl.
  - tauto.
  - rewrite filter_In, String.eqb_eq. tauto.
Qed.

Lemma filter_date_range_In (range : list date) (df : list Row) (r : Row) :
  In r (filter_date_range range df)
  <-> In r df
      /\ forall start_date end_date,
           range = [start_date; end_date] ->
           start_date <= dt_date (invoiceDate r) <= end_date.
Proof.
  destruct range as [| a [| b [| c t]]]; simpl;
    try (split; [intros H; split; [exact H | intros ? ? [=]] | tauto]).
  rewrite filter_In. unfold in_date_range.
  rewrite andb_true_iff, !Z.leb_le. split.
  - intros [Hin Hr]. split; [exact Hin |]. intros ? ? [= <- <-]. exact Hr.
  - intros [Hin Hr]. split; [exact Hin |]. apply Hr. reflexivity.
Qed.

(** X1: a row is in the filtered set exactly when it is a row of the data
    that meets every criterion in force: its day is within the two bounds
    when two bounds are given, its category is the selected one unless
    "All" is selected, and likewise for its supplier. *)
Theorem apply_filters_conjunction (c : FilterCriteria) (df : list Row) (r : Row) :
  In r (apply_filters c df)
  <-> In r df
      /\ (forall start_date end_date,
            date_range c = [start_date; end_date] ->
            start_date <= dt_date (invoiceDate r) <= end_date)
      /\ (selected_category c <> "All"%string ->
          category r = selected_category c)
      /\ (selected_supplier c <> "All"%string ->
          supplierName r = selected_supplier c).
Proof.
  unfold apply_filters.
  rewrite filter_supplier_In, filter_category_In, filter_date_range_In.
  tauto.
Qed.

(** X2: a date range given end first (start after end) leaves no row, and
    the key metrics are then those of the empty set. *)
Theorem inverted_date_range_empty (start_date end_date : date) (df : list Row) :
  end_date < start_date ->
  filter_date_range [start_date; end_date] df = []
  /\ total_invoices (key_metrics (filter_date_range [start_date; end_date] df))
     = 0%nat.
Proof.
  intros Hlt.
  assert (H : filter_date_range [start_date; end_date] df = []).
  { simpl. induction df as [| r t IH]; simpl; [reflexivity |].
    unfold in_date_range at 1.
    destruct (start_date <=? dt_date (invoiceDate r)) eqn:E1;
      destruct (dt_date (invoiceDate r) <=? end_date) eqn:E2;
      simpl; try exact IH.
    apply Z.leb_le in E1, E2. lia. }
  rewrite H. split; reflexivity.
Qed.

Lemma inverted_date_range_empty_witness :
  Sample.day 2024 1 1 < Sample.day 2024 12 31
  /\ filter_date_range [Sample.day 2024 12 31; Sample.day 2024 1 1]
                       Sample.scenario_rows = [].
Proof.
  assert (H : Sample.day 2024 1 1 < Sample.day 2024 12 31)
    by (vm_compute; reflexivity).
  split; [exact H |].
  exact (proj1 (inverted_date_range_empty
                  (Sample.day 2024 12 31) (Sample.day 2024 1 1)
                  Sample.scenario_rows H)).
Defined.

(** *** The initial date range *)

Lemma series_min_lower (l : list Timestamp) (m : Timestamp) :
  series_min l = Some m -> In m l /\ forall t, In t l -> m <= t.
Proof.
  revert m. induction l as [| x rest IH]; simpl; intros m H; [discriminate |].
  destruct (series_min rest) as [m' |] eqn:E.
  - injection H as <-. destruct (IH m' eq_refl) as [Hin Hle]. split.
    + destruct (Z.min_spec x m') as [[_ ->] | [_ ->]]; auto.
    + intros t [<- | Ht]; [lia |]. specialize (Hle t Ht). lia.
  - injection H as <-. destruct rest as [| y rest'].
    + split; [auto |]. intros t [<- | []]. lia.
    + simpl in E. destruct (series_min rest'); discriminate.
Qed.

Lemma series_max_upper (l : list Timestamp) (m : Timestamp) :
  series_max l = Some m -> In m l /\ forall t, In t l -> t <= m.
Proof.
  revert m. induction l as [| x rest IH]; simpl; intros m H; [discriminate |].
  destruct (series_max rest) as [m' |] eqn:E.
  - injection H as <-. destruct (IH m' eq_refl) as [Hin Hle]. split.
    + destruct (Z.max_spec x m') as [[_ ->] | [_ ->]]; auto.
    + intros t [<- | Ht]; [lia |]. specialize (Hle t Ht). lia.
  - injection H as <-. destruct rest as [| y rest'].
    + split; [auto |]. intros t [<- | []]. lia.
    + simpl in E. destruct (series_max rest'); discriminate.
Qed.

Lemma series_min_defined (l : list Timestamp) :
  l <> [] -> exists m, series_min l = Some m.
Proof.
  destruct l as [| x rest]; [contradiction |]. intros _. simpl.
  destruct (series_min rest); eexists; reflexivity.
Qed.

Lemma series_max_defined (l : list Timestamp) :
  l <> [] -> exists m, series_max l = Some m.
Proof.
  destruct l as [| x rest]; [contradiction |]. intros _. simpl.
  destruct (series_max rest); eexists; reflexivity.
Qed.

Lemma dt_date_monotone (t1 t2 : Timestamp) :
  t1 <= t2 -> dt_date t1 <= dt_date t2.
Proof.
  intros H. unfold dt_date, ns_per_day. apply Z.div_le_mono; lia.
Qed.

Lemma filter_keeps_all {A} (p : A -> bool) (l : list A) :
  (forall x, In x l -> p x = true) -> filter p l = l.
Proof.
  induction l as [| x t IH]; simpl; intros H; [reflexivity |].
  rewrite (H x (or_introl eq_refl)), IH; [reflexivity |].
  intros y Hy. apply H. auto.
Qed.

(** X3: on data with at least one row, the initial value of the date-range
    widget is the pair of the earliest and the latest invoice day; these
    are days of rows of the data, and filtering by them keeps every row. *)
Theorem default_date_range_keeps_all (df : list Row) :
  df <> [] ->
  exists lo hi,
    default_date_range df = Some [lo; hi]
    /\ lo <= hi
    /\ In lo (map (fun r => dt_date (invoiceDate r)) df)
    /\ In hi (map (fun r => dt_date (invoiceDate r)) df)
    /\ filter_date_range [lo; hi] df = df.
Proof.
  intros Hne.
  assert (Hcol : map invoiceDate df <> []).
  { destruct df; [contradiction | discriminate]. }
  destruct (series_min_defined _ Hcol) as [tmin Hmin].
  destruct (series_max_defined _ Hcol) as [tmax Hmax].
  destruct (series_min_lower _ _ Hmin) as [Hmin_in Hmin_le].
  destruct (series_max_upper _ _ Hmax) as [Hmax_in Hmax_le].
  exists (dt_date tmin), (dt_date tmax).
  unfold default_date_range, min_date, max_date. rewrite Hmin, Hmax. simpl.
  split; [reflexivity |].
  split; [apply dt_date_monotone; apply Hmax_le; exact Hmin_in |].
  assert (Hday : forall t, In t (map invoiceDate df) ->
                           In (dt_date t)
                              (map (fun r => dt_date (invoiceDate r)) df)).
  { intros t Ht. apply in_map_iff in Ht. destruct Ht as [r [<- Hr]].
    apply in_map_iff. exists r. auto. }
  split; [apply Hday; exact Hmin_in |].
  split; [apply Hday; exact Hmax_in |].
  apply filter_keeps_all. intros r Hr. unfold in_date_range.
  apply andb_true_iff. rewrite !Z.leb_le.
  assert (Hin : In (invoiceDate r) (map invoiceDate df)) by (apply in_map; exact Hr).
  split; apply dt_date_monotone; auto.
Qed.

Lemma default_date_range_keeps_all_witness :
  Sample.scenario_rows <> []
  /\ exists lo hi,
       default_date_range Sample.scenario_rows = Some [lo; hi]
       /\ filter_date_range [lo; hi] Sample.scenario_rows = Sample.scenario_rows.
Proof.
  assert (H : Sample.scenario_rows <> []) by discriminate.
  split; [exact H |].
  destruct (default_date_range_keeps_all Sample.scenario_rows H)
    as [lo [hi [Hd [_ [_ [_ Hf]]]]]].
  exists lo, hi. split; assumption.
Defined.

(** *** The choices offered by the category and supplier widgets *)

Lemma string_leb_compare (a b : string) :
  String.leb a b = true <-> String.compare a b = Lt \/ a = b.
Proof.
  unfold String.leb. destruct (String.compare a b) eqn:E.
  - apply String_as_OT.cmp_eq in E. tauto.
  - tauto.
  - split; [discriminate |]. intros [H | ->]; [discriminate |].
    pose proof (proj2 (String_as_OT.cmp_eq b b) eq_refl) as Hb.
    unfold String_as_OT.cmp in Hb. congruence.
Qed.

Lemma string_leb_order : total_order String.leb.
Proof.
  split.
  - apply String.leb_total.
  - intros a b c. rewrite !string_leb_compare.
    intros [H1 | ->] [H2 | ->]; auto.
    left. eapply string_compare_trans; eassumption.
Qed.

Lemma py_sorted_perm (l : list string) : Permutation l (py_sorted l).
Proof. apply insertion_sort_perm. Qed.

Lemma py_sorted_In (l : list string) (x : string) :
  In x (py_sorted l) <-> In x l.
Proof.
  split; apply Permutation_in;
    [apply Permutation_sym |]; apply py_sorted_perm.
Qed.

Lemma choices_spec (col : list string) :
  (forall x, In x (py_sorted (unique col)) <-> In x col)
  /\ NoDup (py_sorted (unique col))
  /\ StronglySorted (fun a b => String.leb a b = true) (py_sorted (unique col)).
Proof.
  split; [| split].
  - intros x. rewrite py_sorted_In. apply unique_In.
  - eapply Permutation_NoDup; [apply py_sorted_perm | apply unique_NoDup].
  - apply insertion_sort_sorted. apply string_leb_order.
Qed.

(** X4: the category widget offers "All" followed by the categories of
    the rows it is computed from, each once, in ascending text order; the
    supplier widget does the same with the supplier names. *)
Theorem widget_choices (df_filtered : list Row) :
  (exists cs,
     categories df_filtered = "All"%string :: cs
     /\ (forall c, In c cs <-> In c (map category df_filtered))
     /\ NoDup cs
     /\ StronglySorted (fun a b => String.leb a b = true) cs)
  /\ (exists ss,
        suppliers df_filtered = "All"%string :: ss
        /\ (forall s, In s ss <-> In s (map supplierName df_filtered))
        /\ NoDup ss
        /\ StronglySorted (fun a b => String.leb a b = true) ss).
Proof.
  split; eexists; (split; [reflexivity | apply choices_spec]).
Qed.

Lemma offered_category_present (sel : string) (df : list Row) :
  df <> [] -> In sel (categories df) -> filter_category sel df <> [].
Proof.
  intros Hne Hin. unfold filter_category.
  destruct (String.eqb_spec sel "All") as [-> | Hsel]; simpl; [exact Hne |].
  destruct Hin as [Heq | Hin]; [congruence |].
  apply py_sorted_In, unique_In, in_map_iff in Hin.
  destruct Hin as [r [Hr Hin]].
  intros Hnil.
  assert (H : In r (filter (fun r0 => (category r0 =? sel)%string) df)).
  { apply filter_In. split; [exact Hin | apply String.eqb_eq; exact Hr]. }
  rewrite Hnil in H. contradiction.
Qed.

Lemma offered_supplier_present (sel : string) (df : list Row) :
  df <> [] -> In sel (suppliers df) -> filter_supplier sel df <> [].
Proof.
  intros Hne Hin. unfold filter_supplier.
  destruct (String.eqb_spec sel "All") as [-> | Hsel]; simpl; [exact Hne |].
  destruct Hin as [Heq | Hin]; [congruence |].
  apply py_sorted_In, unique_In, in_map_iff in Hin.
  destruct Hin as [r [Hr Hin]].
  intros Hnil.
  assert (H : In r (filter (fun r0 => (supplierName r0 =? sel)%string) df)).
  { apply filter_In. split; [exact Hin | apply String.eqb_eq; exact Hr]. }
  rewrite Hnil in H. contradiction.
Qed.

(** X5: when the date range leaves at least one row, a category taken
    from the choices offered for those rows and a supplier taken from the
    choices offered after the category filter never empty the filtered
    set. *)
Theorem offered_choices_keep_rows (c : FilterCriteria) (df : list Row) :
  filter_date_range (date_range c) df <> [] ->
  In (selected_category c)
     (categories (filter_date_range (date_range c) df)) ->
  In (selected_supplier c)
     (suppliers (filter_category (selected_category c)
                                 (filter_date_range (date_range c) df))) ->
  apply_filters c df <> [].
Proof.
  intros Hne Hcat Hsup. unfold apply_filters.
  apply offered_supplier_present; [| exact Hsup].
  apply offered_category_present; assumption.
Qed.

Lemma offered_choices_keep_rows_witness :
  apply_filters Sample.criteria_A Sample.scenario_rows <> [].
Proof.
  apply offered_choices_keep_rows.
  - vm_compute. discriminate.
  - vm_compute. auto.
  - vm_compute. auto.
Defined.

(** ** The pages of the display table *)

Lemma firstn_plus {A} (a b : nat) (l : list A) :
  firstn (a + b) l = firstn a l ++ firstn b (skipn a l).
Proof.
  revert l. induction a as [| a IH]; intros l; simpl; [reflexivity |].
  destruct l as [| x t]; simpl.
  - rewrite firstn_nil. reflexivity.
  - rewrite IH. reflexivity.
Qed.

Lemma chunks_firstn {A} (k n : nat) (l : list A) :
  flat_map (fun i => firstn k (skipn (i * k) l)) (seq 0 n) = firstn (n * k) l.
Proof.
  induction n as [| n IH].
  - reflexivity.
  - rewrite seq_S, flat_map_app, IH. simpl.
    rewrite app_nil_r, (Nat.add_comm k (n * k)). symmetry. apply firstn_plus.
Qed.

Lemma total_pages_covers (n k : Z) :
  1 <= k -> n <= total_pages n k * k /\ (total_pages n k - 1) * k <= n - 1.
Proof.
  intros Hk. unfold total_pages.
  pose proof (Z.div_mod (n - 1) k ltac:(lia)) as Hd.
  pose proof (Z.mod_pos_bound (n - 1) k ltac:(lia)) as Hb.
  nia.
Qed.

Lemma total_pages_nonneg (n k : Z) : 0 <= n -> 1 <= k -> 0 <= total_pages n k.
Proof.
  intros Hn Hk. unfold total_pages.
  assert (-1 <= (n - 1) / k); [| lia].
  apply Z.div_le_lower_bound; lia.
Qed.

Lemma page_is_chunk (l : list DisplayRow) (k : Z) (i : nat) :
  1 <= k ->
  iloc ((Z.of_nat (S i) - 1) * k) ((Z.of_nat (S i) - 1) * k + k) l
  = firstn (Z.to_nat k) (skipn (i * Z.to_nat k) l).
Proof.
  intros Hk. unfold iloc.
  replace ((Z.of_nat (S i) - 1) * k + k - (Z.of_nat (S i) - 1) * k) with k by lia.
  replace (Z.to_nat ((Z.of_nat (S i) - 1) * k)) with (i * Z.to_nat k)%nat;
    [reflexivity |].
  replace (Z.of_nat (S i) - 1) with (Z.of_nat i) by lia.
  rewrite Z2Nat.inj_mul, Nat2Z.id by lia. reflexivity.
Qed.

(** X6: for a page size of at least 1, the pages 1 to [total_pages] put
    one after the other give back the display table: every row is on
    exactly one page, in table order. *)
Theorem pages_cover_table (display : list DisplayRow) (rows_per_page : Z) :
  1 <= rows_per_page ->
  all_pages display rows_per_page = display.
Proof.
  intros Hk. unfold all_pages.
  set (n := Z.of_nat (List.length display)).
  pose proof (total_pages_covers n rows_per_page Hk) as [Hcov _].
  pose proof (total_pages_nonneg n rows_per_page ltac:(lia) Hk) as Hpos.
  destruct (total_pages n rows_per_page >? 1) eqn:E.
  - rewrite <- seq_shift, flat_map_concat_map, map_map,
      <- flat_map_concat_map.
    rewrite (flat_map_ext _
               (fun i => firstn (Z.to_nat rows_per_page)
                                (skipn (i * Z.to_nat rows_per_page) display))).
    + rewrite chunks_firstn. apply firstn_all2.
      rewrite <- Z2Nat.inj_mul by lia.
      apply Nat2Z.inj_le. rewrite Z2Nat.id by nia. fold n. exact Hcov.
    + intros i. unfold display_df_page. fold n. rewrite E.
      apply page_is_chunk. exact Hk.
  - assert (Hsmall : total_pages n rows_per_page = 0
                     \/ total_pages n rows_per_page = 1).
    { rewrite Z.gtb_ltb in E. apply Z.ltb_ge in E. lia. }
    destruct Hsmall as [H0 | H1].
    + rewrite H0. simpl.
      rewrite H0 in Hcov. destruct display; [reflexivity |].
      subst n. simpl List.length in Hcov. lia.
    + rewrite H1. simpl. unfold display_df_page. fold n. rewrite E.
      apply app_nil_r.
Qed.

Lemma pages_cover_table_witness :
  1 <= 5 /\ all_pages twelve_rows 5 = twelve_rows.
Proof.
  split; [lia |].
  apply (pages_cover_table twelve_rows 5). lia.
Defined.

(** X7: when there is more than one page, a page numbered from 1 to
    [total_pages] holds between 1 and [rows_per_page] rows, and the caption
    "Showing first-last of total" counts exactly the rows of that page. *)
Theorem page_rows_match_caption (display : list DisplayRow)
        (rows_per_page page : Z) :
  1 <= rows_per_page ->
  1 < total_pages (Z.of_nat (List.length display)) rows_per_page ->
  1 <= page <= total_pages (Z.of_nat (List.length display)) rows_per_page ->
  1 <= Z.of_nat (List.length (display_df_page display rows_per_page page))
    <= rows_per_page
  /\ Z.of_nat (List.length (display_df_page display rows_per_page page))
     = snd (fst (caption display rows_per_page page))
       - fst (fst (caption display rows_per_page page)) + 1
  /\ snd (caption display rows_per_page page)
     = Z.of_nat (List.length display).
Proof.
  intros Hk Hmany Hpage. unfold caption, display_df_page. simpl.
  set (n := Z.of_nat (List.length display)) in *.
  pose proof (total_pages_covers n rows_per_page Hk) as [_ Hlast].
  assert (Hstart : 0 <= (page - 1) * rows_per_page <= n - 1) by nia.
  destruct (total_pages n rows_per_page >? 1) eqn:E;
    [| rewrite Z.gtb_ltb in E; apply Z.ltb_ge in E; lia].
  unfold iloc. rewrite length_firstn, length_skipn.
  replace ((page - 1) * rows_per_page + rows_per_page
           - (page - 1) * rows_per_page) with rows_per_page by lia.
  subst n. lia.
Qed.

Lemma page_rows_match_caption_witness :
  List.length (display_df_page twelve_rows 5 3) = 2%nat
  /\ caption twelve_rows 5 3 = (11, 12, 12).
Proof.
  destruct (page_rows_match_caption twelve_rows 5 3
              ltac:(lia) ltac:(vm_compute; reflexivity)
              ltac:(vm_compute; split; discriminate))
    as [_ [H _]].
  split; [| reflexivity].
  apply Nat2Z.inj. rewrite H. reflexivity.
Defined.

(** ** Key metrics of a non-empty set *)

Lemma unique_length_le (l : list string) :
  (List.length (unique l) <= List.length l)%nat.
Proof.
  apply NoDup_incl_length; [apply unique_NoDup |].
  intros x Hx. apply unique_In. exact Hx.
Qed.

Lemma unique_single (l : list string) (x : string) :
  Forall (fun y => y = x) l -> (List.length (unique l) <= 1)%nat.
Proof.
  intros H.
  change 1%nat with (List.length [x]).
  apply NoDup_incl_length; [apply unique_NoDup |].
  intros y Hy. apply (proj1 (unique_In l y)) in Hy.
  rewrite Forall_forall in H. left. symmetry. apply H. exact Hy.
Qed.

(** X8: the number of distinct suppliers of the key metrics is never more
    than the number of invoices and is at least 1 on a filtered set with
    at least one row; once a supplier other than "All" is selected it is at
    most 1. *)
Theorem unique_suppliers_bounds (df_filtered : list Row) (selected : string) :
  (unique_suppliers (key_metrics df_filtered)
   <= total_invoices (key_metrics df_filtered))%nat
  /\ (df_filtered <> [] ->
      (1 <= unique_suppliers (key_metrics df_filtered))%nat)
  /\ (selected <> "All"%string ->
      (unique_suppliers (key_metrics (filter_supplier selected df_filtered))
       <= 1)%nat).
Proof.
  unfold key_metrics, nunique. cbn [unique_suppliers total_invoices].
  split; [| split].
  - etransitivity; [apply unique_length_le |].
    rewrite length_map. reflexivity.
  - intros Hne. destruct df_filtered as [| r t]; [contradiction |].
    simpl. lia.
  - intros Hsel. apply (unique_single _ selected).
    apply Forall_forall. intros name Hin.
    apply in_map_iff in Hin. destruct Hin as [r [<- Hr]].
    apply filter_supplier_In in Hr. destruct Hr as [_ Hr]. auto.
Qed.

Lemma unique_suppliers_bounds_witness :
  (1 <= unique_suppliers (key_metrics Sample.scenario_rows))%nat
  /\ (unique_suppliers
        (key_metrics (filter_supplier "A" Sample.scenario_rows)) <= 1)%nat.
Proof.
  destruct (unique_suppliers_bounds Sample.scenario_rows "A") as [_ [H1 H2]].
  split; [apply H1 | apply H2]; discriminate.
Defined.

(** ** Ranked totals: the category and supplier charts *)

Section Ranking.
Variable kind : SortKind.
Variable key : Row -> string.
Variable df : list Row.

Lemma ranked_totals_perm :
  Permutation (groupby_sum key invoiceGross df) (ranked_totals kind key df).
Proof. apply sort_values_perm. Qed.

Lemma ranked_totals_sorted :
  StronglySorted (fun a b => (snd b <= snd a)%Q) (ranked_totals kind key df).
Proof.
  pose proof (sort_values_descending kind by_total
                (groupby_sum key invoiceGross df) by_total_order) as H.
  fold (ranked_totals kind key df) in H.
  induction H as [| a l _ IH Ha]; constructor; [exact IH |].
  eapply Forall_impl; [| exact Ha].
  intros b Hb. apply Qle_bool_iff. exact Hb.
Qed.

Lemma ranked_totals_NoDup : NoDup (map fst (ranked_totals kind key df)).
Proof.
  eapply Permutation_NoDup.
  - apply Permutation_map. apply ranked_totals_perm.
  - apply sorted_keys_NoDup. apply groupby_sum_sorted.
Qed.

Lemma ranked_totals_entry (c : string) (s : Q) :
  In (c, s) (ranked_totals kind key df) ->
  (s == group_total key invoiceGross c df)%Q.
Proof.
  intros H. apply groupby_sum_entry.
  eapply Permutation_in; [apply Permutation_sym, ranked_totals_perm | exact H].
Qed.

Lemma ranked_totals_keys (c : string) :
  In c (map fst (ranked_totals kind key df)) <-> In c (map key df).
Proof.
  rewrite <- (groupby_sum_keys key invoiceGross). split; intros H.
  - eapply Permutation_in; [| exact H].
    apply Permutation_map, Permutation_sym, ranked_totals_perm.
  - eapply Permutation_in; [| exact H].
    apply Permutation_map, ranked_totals_perm.
Qed.

Lemma ranked_totals_length :
  List.length (ranked_totals kind key df) = nunique (map key df).
Proof.
  unfold nunique. rewrite <- (length_map fst).
  apply Permutation_length. apply NoDup_Permutation.
  - apply ranked_totals_NoDup.
  - apply unique_NoDup.
  - intros c. rewrite ranked_totals_keys, unique_In. reflexivity.
Qed.

Lemma ranked_totals_head_best (n : nat) (c c' : string) (s : Q) :
  In (c, s) (firstn n (ranked_totals kind key df)) ->
  In c' (map key df) ->
  ~ In c' (map fst (firstn n (ranked_totals kind key df))) ->
  (group_total key invoiceGross c' df <= s)%Q.
Proof.
  intros Hin Hc' Hnot.
  assert (Hs : StronglySorted (fun a b => (snd b <= snd a)%Q)
                 (firstn n (ranked_totals kind key df)
                  ++ skipn n (ranked_totals kind key df))).
  { rewrite firstn_skipn. apply ranked_totals_sorted. }
  apply ranked_totals_keys in Hc'. apply in_map_iff in Hc'.
  destruct Hc' as [[c0 s'] [Hf Hin']]. simpl in Hf. subst c0.
  assert (Hskip : In (c', s') (skipn n (ranked_totals kind key df))).
  { rewrite <- (firstn_skipn n (ranked_totals kind key df)) in Hin'.
    apply in_app_or in Hin'. destruct Hin' as [H | H]; [| exact H].
    exfalso. apply Hnot. apply in_map_iff. exists (c', s'). auto. }
  pose proof (StronglySorted_app_inv _ _ _ Hs _ _ Hin Hskip) as Hle.
  simpl in Hle.
  rewrite <- (ranked_totals_entry c' s'); [exact Hle | exact Hin'].
Qed.

End Ranking.

Lemma StronglySorted_firstn {A} (R : A -> A -> Prop) (n : nat) (l : list A) :
  StronglySorted R l -> StronglySorted R (firstn n l).
Proof.
  intros H. revert n. induction H as [| x t Hs IH Hx]; intros [| n]; simpl;
    try constructor.
  - apply IH.
  - apply Forall_forall. intros y Hy. rewrite Forall_forall in Hx.
    apply Hx. rewrite <- (firstn_skipn n t). apply in_or_app. auto.
Qed.

(** X9: the category chart has one bar per category of the filtered set,
    each carrying the invoiceGross total of that category, from the
    highest total to the lowest. *)
Theorem category_totals_ranking (kind : SortKind) (df_filtered : list Row) :
  NoDup (map fst (category_totals kind df_filtered))
  /\ (forall c, In c (map fst (category_totals kind df_filtered))
                <-> In c (map category df_filtered))
  /\ (forall c s, In (c, s) (category_totals kind df_filtered) ->
                  (s == group_total category invoiceGross c df_filtered)%Q)
  /\ StronglySorted (fun a b => (snd b <= snd a)%Q)
                    (category_totals kind df_filtered)
  /\ List.length (category_totals kind df_filtered)
     = nunique (map category df_filtered).
Proof.
  change (category_totals kind df_filtered)
    with (ranked_totals kind category df_filtered).
  repeat split.
  - apply ranked_totals_NoDup.
  - apply ranked_totals_keys.
  - apply ranked_totals_keys.
  - apply ranked_totals_entry.
  - apply ranked_totals_sorted.
  - apply ranked_totals_length.
Qed.

(** X10: the supplier chart shows 10 suppliers, or all of them when the
    filtered set has at most 10: each shown once with its invoiceGross
    total, from the highest total down, and no supplier left out has
    a higher total than one that is shown. *)
Theorem supplier_totals_top_ten (kind : SortKind) (df_filtered : list Row) :
  List.length (supplier_totals kind df_filtered)
  = Nat.min 10 (unique_suppliers (key_metrics df_filtered))
  /\ NoDup (map fst (supplier_totals kind df_filtered))
  /\ (forall name s,
        In (name, s) (supplier_totals kind df_filtered) ->
        In name (map supplierName df_filtered)
        /\ (s == group_total supplierName invoiceGross name df_filtered)%Q)
  /\ StronglySorted (fun a b => (snd b <= snd a)%Q)
                    (supplier_totals kind df_filtered)
  /\ (forall name s other,
        In (name, s) (supplier_totals kind df_filtered) ->
        In other (map supplierName df_filtered) ->
        ~ In other (map fst (supplier_totals kind df_filtered)) ->
        (group_total supplierName invoiceGross other df_filtered <= s)%Q)
  /\ ((unique_suppliers (key_metrics df_filtered) <= 10)%nat ->
      forall name, In name (map supplierName df_filtered) ->
                   In name (map fst (supplier_totals kind df_filtered))).
Proof.
  unfold supplier_totals.
  change (supplier_ranking kind df_filtered)
    with (ranked_totals kind supplierName df_filtered).
  change (unique_suppliers (key_metrics df_filtered))
    with (nunique (map supplierName df_filtered)).
  assert (Hsub : forall p,
             In p (firstn 10 (ranked_totals kind supplierName df_filtered)) ->
             In p (ranked_totals kind supplierName df_filtered)).
  { intros p Hp.
    rewrite <- (firstn_skipn 10 (ranked_totals kind supplierName df_filtered)).
    apply in_or_app. auto. }
  split; [| split; [| split; [| split; [| split]]]].
  - rewrite length_firstn, ranked_totals_length. reflexivity.
  - rewrite <- firstn_map.
    pose proof (ranked_totals_NoDup kind supplierName df_filtered) as H.
    rewrite <- (firstn_skipn 10 (map fst _)) in H.
    eapply NoDup_app_remove_r. exact H.
  - intros name s Hin. apply Hsub in Hin. split.
    + apply (ranked_totals_keys kind supplierName df_filtered).
      apply in_map_iff. exists (name, s). auto.
    + apply ranked_totals_entry with (kind := kind). exact Hin.
  - apply StronglySorted_firstn. apply ranked_totals_sorted.
  - intros name s other Hin Hother Hnot.
    eapply ranked_totals_head_best; eassumption.
  - intros Hfew name Hname.
    rewrite firstn_all2.
    + apply ranked_totals_keys. exact Hname.
    + rewrite ranked_totals_length. exact Hfew.
Qed.

Lemma supplier_totals_top_ten_witness :
  (unique_suppliers (key_metrics Sample.six_categories) <= 10)%nat
  /\ forall name, In name (map supplierName Sample.six_categories) ->
                  In name (map fst (supplier_totals stable_kind
                                                    Sample.six_categories)).
Proof.
  assert (H : (unique_suppliers (key_metrics Sample.six_categories) <= 10)%nat).
  { vm_compute. lia. }
  split; [exact H |].
  destruct (supplier_totals_top_ten stable_kind Sample.six_categories)
    as [_ [_ [_ [_ [_ Hall]]]]].
  exact (Hall H).
Defined.

(** ** The monthly charts *)

Lemma by_yearMonth_order {V : Type} : total_order (@by_yearMonth V).
Proof.
  unfold by_yearMonth. split.
  - intros a b. rewrite !Z.leb_le. lia.
  - intros a b c. rewrite !Z.leb_le. lia.
Qed.

Section MonthIndex.
Variable to_datetime : string -> option Timestamp.
Context {V : Type}.

Lemma month_index_rows (l : list (string * V)) :
  Forall (fun g => to_datetime (fst g) <> None) l ->
  exists ms,
    month_index to_datetime l = Ok ms
    /\ Forall2 (fun g m => to_datetime (fst g) = Some (fst m) /\ snd m = snd g)
               l ms.
Proof.
  induction 1 as [| [ym v] rest Hg _ [ms [Hm HF]]]; simpl.
  - exists []. split; [reflexivity | constructor].
  - simpl in Hg. destruct (to_datetime ym) as [t |] eqn:E; [| contradiction].
    rewrite Hm. simpl. exists ((t, v) :: ms). split; [reflexivity |].
    constructor; [simpl; auto | exact HF].
Qed.

Lemma month_index_values (l : list (string * V)) (ms : list (Timestamp * V)) :
  Forall2 (fun g m => to_datetime (fst g) = Some (fst m) /\ snd m = snd g) l ms ->
  map snd ms = map snd l.
Proof.
  induction 1 as [| g m l ms [_ Hv] _ IH]; simpl; [reflexivity |].
  rewrite Hv, IH. reflexivity.
Qed.

End MonthIndex.

Lemma groupby_sum_length {R} (key : R -> string) (val : R -> Q) (df : list R) :
  List.length (groupby_sum key val df) = nunique (map key df).
Proof.
  unfold nunique. rewrite <- (length_map fst).
  apply Permutation_length. apply NoDup_Permutation.
  - apply sorted_keys_NoDup. apply groupby_sum_sorted.
  - apply unique_NoDup.
  - intros c. rewrite groupby_sum_keys, unique_In. reflexivity.
Qed.

Lemma sorted_by_yearMonth {V : Type} (l : list (Timestamp * V)) :
  StronglySorted (fun a b => by_yearMonth a b = true) l ->
  StronglySorted (fun a b => fst a <= fst b) l.
Proof.
  induction 1 as [| a t _ IH Ha]; constructor; [exact IH |].
  eapply Forall_impl; [| exact Ha].
  intros b Hb. apply Z.leb_le. exact Hb.
Qed.

(** X11: the monthly spending series is produced when every yearMonth
    text reads back as a date.  It has one point per month of the filtered
    set, in ascending order of month, each carrying the invoiceGross total
    of the rows of its month. *)
Theorem monthly_totals_series (kind : SortKind)
        (to_datetime : string -> option Timestamp) (df_filtered : list Row) :
  (forall r, In r df_filtered -> to_datetime (yearMonth r) <> None) ->
  exists points,
    monthly_totals kind to_datetime df_filtered = Ok points
    /\ StronglySorted (fun a b => fst a <= fst b) points
    /\ List.length points = nunique (map yearMonth df_filtered)
    /\ (forall t s, In (t, s) points ->
          exists r,
            In r df_filtered
            /\ to_datetime (yearMonth r) = Some t
            /\ (s == group_total yearMonth invoiceGross (yearMonth r)
                                 df_filtered)%Q)
    /\ (forall r, In r df_filtered ->
          exists t s,
            In (t, s) points /\ to_datetime (yearMonth r) = Some t).
Proof.
  intros Hdates.
  destruct (month_index_rows to_datetime
              (groupby_sum yearMonth invoiceGross df_filtered))
    as [ms [Hm HF]].
  { apply Forall_forall. intros [ym s] Hin. simpl.
    assert (Hk : In ym (map yearMonth df_filtered)).
    { apply (groupby_sum_keys yearMonth invoiceGross).
      apply in_map_iff. exists (ym, s). auto. }
    apply in_map_iff in Hk. destruct Hk as [r [<- Hr]]. auto. }
  exists (sort_values kind by_yearMonth true ms).
  pose proof (sort_values_perm kind (@by_yearMonth Q) true ms) as Hperm.
  split; [unfold monthly_totals; rewrite Hm; reflexivity |].
  split; [apply sorted_by_yearMonth, sort_values_ascending,
          by_yearMonth_order |].
  split; [| split].
  - rewrite <- (Permutation_length Hperm).
    rewrite <- (Forall2_length HF). apply groupby_sum_length.
  - intros t s Hin.
    apply (Permutation_in _ (Permutation_sym Hperm)) in Hin.
    destruct (Forall2_In_r _ _ _ HF _ Hin) as [[ym s'] [Hg [Ht Hs]]].
    simpl in Ht, Hs. subst s'.
    assert (Hk : In ym (map yearMonth df_filtered)).
    { apply (groupby_sum_keys yearMonth invoiceGross).
      apply in_map_iff. exists (ym, s). auto. }
    apply in_map_iff in Hk. destruct Hk as [r [Hr Hin']].
    exists r. subst ym. repeat split; try assumption.
    apply groupby_sum_entry. exact Hg.
  - intros r Hin.
    destruct (groupby_sum_group yearMonth invoiceGross df_filtered r Hin)
      as [s Hg].
    destruct (Forall2_In_l _ _ _ HF _ Hg) as [[t s'] [Hp [Ht _]]].
    simpl in Ht. exists t, s'. split; [| exact Ht].
    eapply Permutation_in; eassumption.
Qed.

Lemma monthly_totals_series_witness :
  exists points,
    monthly_totals stable_kind iso_to_datetime Sample.scenario_rows = Ok points
    /\ List.length points = 2%nat.
Proof.
  destruct (monthly_totals_series stable_kind iso_to_datetime
                                  Sample.scenario_rows)
    as [points [Hp [_ [Hlen _]]]].
  - intros r Hr. simpl in Hr.
    repeat (destruct Hr as [<- | Hr]; [vm_compute; discriminate |]).
    contradiction.
  - exists points. split; [exact Hp |]. rewrite Hlen. reflexivity.
Defined.

(** *** Invoices by month *)

Section GroupSize.
Context {R K : Type} `{OK : Ord K} (key : R -> K).

Lemma group_incr_count (k : K) (acc : list (K * nat)) :
  sum_counts (map snd (group_incr k acc)) = S (sum_counts (map snd acc)).
Proof.
  induction acc as [| [k1 n1] rest IH]; simpl; [reflexivity |].
  destruct (compare k k1); simpl; [reflexivity | reflexivity |].
  rewrite IH. lia.
Qed.

Lemma group_incr_positive (k : K) (acc : list (K * nat)) :
  Forall (fun g => (1 <= snd g)%nat) acc ->
  Forall (fun g => (1 <= snd g)%nat) (group_incr k acc).
Proof.
  induction 1 as [| [k1 n1] rest Hg Hrest IH]; simpl.
  - repeat constructor.
  - destruct (compare k k1).
    + constructor; [simpl; lia | exact Hrest].
    + repeat constructor; assumption.
    + constructor; assumption.
Qed.

Lemma group_incr_keys (k : K) (acc : list (K * nat)) (k' : K) :
  In k' (map fst (group_incr k acc)) <-> k' = k \/ In k' (map fst acc).
Proof.
  induction acc as [| [k1 n1] rest IH]; simpl.
  - intuition.
  - destruct (compare k k1) eqn:E; simpl.
    + apply compare_eq in E. subst k1. intuition.
    + intuition.
    + rewrite IH. intuition.
Qed.

Lemma groupby_size_snoc (df : list R) (r : R) :
  groupby_size key (df ++ [r]) = group_incr (key r) (groupby_size key df).
Proof. unfold groupby_size. rewrite fold_left_app. reflexivity. Qed.

Lemma groupby_size_count (df : list R) :
  sum_counts (map snd (groupby_size key df)) = List.length df.
Proof.
  induction df as [| r df IH] using rev_ind; [reflexivity |].
  rewrite groupby_size_snoc, group_incr_count, IH, length_app. simpl. lia.
Qed.

Lemma groupby_size_positive (df : list R) :
  Forall (fun g => (1 <= snd g)%nat) (groupby_size key df).
Proof.
  induction df as [| r df IH] using rev_ind; [constructor |].
  rewrite groupby_size_snoc. apply group_incr_positive. exact IH.
Qed.

Lemma groupby_size_keys (df : list R) (k : K) :
  In k (map fst (groupby_size key df)) <-> In k (map key df).
Proof.
  induction df as [| r df IH] using rev_ind; [simpl; tauto |].
  rewrite groupby_size_snoc, group_incr_keys, IH, map_app, in_app_iff.
  simpl. intuition.
Qed.

End GroupSize.

Lemma sum_counts_perm (l1 l2 : list nat) :
  Permutation l1 l2 -> sum_counts l1 = sum_counts l2.
Proof.
  induction 1 as [| x l l' _ IH | x y l | l l' l'' _ IH1 _ IH2]; simpl; lia.
Qed.

(** X12: the invoices-per-month series is produced when every yearMonth
    text reads back as a date.  Its points come in ascending order of
    month, each counts at least one invoice and stands for a month of the
    filtered set, and the counts add up to the number of invoices of the
    key metrics. *)
Theorem monthly_counts_series (kind : SortKind)
        (to_datetime : string -> option Timestamp) (df_filtered : list Row) :
  (forall r, In r df_filtered -> to_datetime (yearMonth r) <> None) ->
  exists points,
    monthly_counts kind to_datetime df_filtered = Ok points
    /\ StronglySorted (fun a b => fst a <= fst b) points
    /\ sum_counts (map snd points) = total_invoices (key_metrics df_filtered)
    /\ forall t n, In (t, n) points ->
         (1 <= n)%nat
         /\ exists r, In r df_filtered /\ to_datetime (yearMonth r) = Some t.
Proof.
  intros Hdates.
  destruct (month_index_rows to_datetime (groupby_size yearMonth df_filtered))
    as [ms [Hm HF]].
  { apply Forall_forall. intros [ym n] Hin. simpl.
    assert (Hk : In ym (map yearMonth df_filtered)).
    { apply (groupby_size_keys yearMonth).
      apply in_map_iff. exists (ym, n). auto. }
    apply in_map_iff in Hk. destruct Hk as [r [<- Hr]]. auto. }
  exists (sort_values kind by_yearMonth true ms).
  pose proof (sort_values_perm kind (@by_yearMonth nat) true ms) as Hperm.
  split; [unfold monthly_counts; rewrite Hm; reflexivity |].
  split; [apply sorted_by_yearMonth, sort_values_ascending,
          by_yearMonth_order |].
  split.
  - rewrite <- (sum_counts_perm _ _ (Permutation_map snd Hperm)).
    rewrite (month_index_values to_datetime _ _ HF).
    apply groupby_size_count.
  - intros t n Hin.
    apply (Permutation_in _ (Permutation_sym Hperm)) in Hin.
    destruct (Forall2_In_r _ _ _ HF _ Hin) as [[ym n'] [Hg [Ht Hn]]].
    simpl in Ht, Hn. subst n'. split.
    + pose proof (groupby_size_positive yearMonth df_filtered) as Hpos.
      rewrite Forall_forall in Hpos. exact (Hpos _ Hg).
    + assert (Hk : In ym (map yearMonth df_filtered)).
      { apply (groupby_size_keys yearMonth).
        apply in_map_iff. exists (ym, n). auto. }
      apply in_map_iff in Hk. destruct Hk as [r [Hr Hin']].
      exists r. subst ym. auto.
Qed.

Lemma monthly_counts_series_witness :
  exists points,
    monthly_counts stable_kind iso_to_datetime Sample.scenario_rows = Ok points
    /\ sum_counts (map snd points) = 3%nat.
Proof.
  destruct (monthly_counts_series stable_kind iso_to_datetime
                                  Sample.scenario_rows)
    as [points [Hp [_ [Hsum _]]]].
  - intros r Hr. simpl in Hr.
    repeat (destruct Hr as [<- | Hr]; [vm_compute; discriminate |]).
    contradiction.
  - exists points. split; [exact Hp |]. rewrite Hsum. reflexivity.
Defined.

(** ** What a successful normalisation guarantees *)

Lemma civil_from_days_ranges (z : Z) :
  1 <= snd (fst (civil_from_days z)) <= 12
  /\ 1 <= snd (civil_from_days z) <= 31.
Proof.
  unfold civil_from_days. cbv zeta. cbn [fst snd].
  set (zz := z + 719468).
  set (era := zz / 146097).
  set (doe := zz - era * 146097).
  assert (Hdoe : 0 <= doe <= 146096).
  { subst doe era.
    pose proof (Z.div_mod zz 146097 ltac:(lia)).
    pose proof (Z.mod_pos_bound zz 146097 ltac:(lia)). lia. }
  clearbody doe. clear era zz.
  set (yoe := (doe - doe / 1460 + doe / 36524 - doe / 146096) / 365).
  set (doy := doe - (365 * yoe + yoe / 4 - yoe / 100)).
  assert (Hdoy : 0 <= doy <= 365).
  { subst doy yoe. Z.div_mod_to_equations. lia. }
  clearbody doy.
  set (mp := (5 * doy + 2) / 153).
  assert (Hmp : 0 <= mp <= 11) by (subst mp; Z.div_mod_to_equations; lia).
  assert (Hd : 1 <= doy - (153 * mp + 2) / 5 + 1 <= 31).
  { subst mp. Z.div_mod_to_equations. lia. }
  split; [| exact Hd].
  destruct (mp <? 10) eqn:E.
  - apply Z.ltb_lt in E. lia.
  - apply Z.ltb_ge in E. lia.
Qed.

Lemma dt_month_range (t : Timestamp) : 1 <= dt_month t <= 12.
Proof.
  unfold dt_month.
  pose proof (civil_from_days_ranges (dt_date t)) as [H _].
  destruct (civil_from_days (dt_date t)) as [[y m] d]. exact H.
Qed.

Lemma numeric_data_dec (data : list Raw.InvoiceRecord) :
  {Forall numeric_amounts data}
  + {Exists (fun invoice => ~ numeric_amounts invoice) data}.
Proof.
  apply Forall_Exists_dec. intros invoice.
  destruct (numeric_amounts_dec invoice) as [H | H]; [left; exact H |].
  right. intros Hn. unfold numeric_amounts in Hn.
  rewrite Forall_forall in Hn. apply Exists_exists in H.
  destruct H as [v [Hin Hv]]. rewrite (Hn v Hin) in Hv. discriminate.
Qed.


